(** * AutoFolio: pairwise tournament selector and fit/predict orchestrator

    A shallow embedding of
      - [autofolio/selector/pairwise_classification.py] (class
        [PairwiseClassifier]: [fit], [predict]) and
      - [autofolio/autofolio.py] (class [AutoFolio]: [run_cv],
        [_overwrite_configuration], [fit_selector], [predict]),
    together with the properties of these functions.

    Numbers that Python keeps as ints or floats (performance values, cutoff
    times, time budgets, the cross-validation score) are canonical rationals
    [Qc]; no property below depends on rounding.  Python dictionaries are
    [gmap]s, pandas frames are given by their index, columns and values. *)

From Stdlib Require Import ZArith QArith Qcanon Qcabs.
From stdpp Require Import base option list numbers strings gmap sorting.

Local Open Scope string_scope.
Local Open Scope list_scope.

(** ** Python values, exceptions and results *)

Module Py.

(** The exceptions the modelled code raises or catches. *)
Inductive exn : Type :=
| KeyError
| IndexError
| TypeError
| ValueError
| UnboundLocalError.

Global Instance exn_eq_dec : EqDecision exn.
Proof. solve_decision. Defined.

(** The outcome of a call: a value, or a raised exception. *)
Inductive result (A : Type) : Type :=
| Ok (a : A)
| Raise (e : exn).
Global Arguments Ok {A} a.
Global Arguments Raise {A} e.

Global Instance result_ret : MRet result := fun A a => Ok a.
Global Instance result_bind : MBind result := fun A B f m =>
  match m with
  | Ok a => f a
  | Raise e => Raise e
  end.

(** Scalar values held by a configuration dictionary or given on the
    command line. *)
Inductive value : Type :=
| VNone
| VBool (b : bool)
| VInt (z : Z)
| VFloat (q : Qc)
| VStr (s : string).

Global Instance value_eq_dec : EqDecision value.
Proof. solve_decision. Defined.

(** Python truthiness: [bool(v)]. *)
Definition truthy (v : value) : bool :=
  match v with
  | VNone => false
  | VBool b => b
  | VInt z => negb (z =? 0)%Z
  | VFloat q => negb (bool_decide (q = 0%Qc))
  | VStr s => negb (bool_decide (s = ""))
  end.

(** [range(lo, hi)]. *)
Definition range (lo hi : nat) : list nat := seq lo (hi - lo).

(** A [for] loop whose body mutates a state of type [S] in place and may
    raise: the state reached so far survives the exception. *)
Fixpoint for_each {S X : Type} (xs : list X)
    (body : X -> S -> S * option exn) (s : S) : S * option exn :=
  match xs with
  | [] => (s, None)
  | x :: xs' =>
      match body x s with
      | (s', None) => for_each xs' body s'
      | (s', Some e) => (s', Some e)
      end
  end.

(** [dict(items)]: later items overwrite earlier ones with the same key. *)
Definition dict {V : Type} (items : list (string * V)) : gmap string V :=
  foldl (fun m kv => <[kv.1 := kv.2]> m) ∅ items.

End Py.
Export Py.

(** ** The scenario (class [ASlibScenario], as far as the code reads it) *)

(** A configuration ([ConfigSpace.Configuration]) read as a dictionary. *)
Abbreviation Configuration := (gmap string value).

Record ASlibScenario : Type := {
  (** [scenario.algorithms]: the ordered algorithm names *)
  algorithms : list string;
  (** [scenario.feature_data]: a frame, one row per instance, given as the
      pairs of index label and feature vector; [feature_data.index] and
      [feature_data.values] are its two projections *)
  feature_data : list (string * list Qc);
  (** [scenario.performance_data]: a frame read by column; the column of an
      algorithm holds one value per instance *)
  performance_data : gmap string (list Qc);
  (** [scenario.performance_type[0]] *)
  performance_type : string;
  (** [scenario.algorithm_cutoff_time]; [None] when the attribute is unset *)
  algorithm_cutoff_time : option Qc;
  (** [scenario.maximize[0]] *)
  maximize : bool
}.

Definition feature_index (scenario : ASlibScenario) : list string :=
  (feature_data scenario).*1.
Definition feature_values (scenario : ASlibScenario) : list (list Qc) :=
  (feature_data scenario).*2.

(** A schedule: the algorithms to run on one instance with their budgets. *)
Abbreviation Schedule := (list (string * Qc)).

(** ** [PairwiseClassifier] (selector/pairwise_classification.py) *)

Module PairwiseClassifier.

(** The classes [AutoFolio.fit_selector] can pass as [classifier_class]. *)
Inductive ClassifierClass : Type := RandomForest.

Section Selector.

(** The binary classifier is an external learner, known by its contract:
    [clf = classifier_class(); clf.fit(X, y, config, weights)] yields a
    fitted handle, and [clf.predict(X)] answers 0 or 1 for each row of
    [X].  Both calls are taken to return: an exception raised inside the
    learner has no path here, and the properties of [fit] and [predict]
    below say what these do when the learner returns. *)
Context {Clf : Type}.
Variable clf_fit :
  list (list Qc) -> list bool -> Configuration -> list Qc -> Clf.
Variable clf_predict : Clf -> list Qc -> bool.

(** The attributes of a [PairwiseClassifier] object. *)
Record t : Type := Build {
  self_classifiers : list Clf;
  (** unset until [fit] runs *)
  self_algorithms : option (list string);
  (** [None] when [fit_selector] found no class for the configuration *)
  self_classifier_class : option ClassifierClass
}.

(** [__init__(self, classifier_class)] *)
Definition init (classifier_class : option ClassifierClass) : t :=
  Build [] None classifier_class.

(** [scenario.performance_data[scenario.algorithms[i]].values] *)
Definition performance_column (scenario : ASlibScenario) (i : nat)
    : result (list Qc) :=
  match algorithms scenario !! i with
  | None => Raise IndexError
  | Some name =>
      match performance_data scenario !! name with
      | None => Raise KeyError
      | Some col => Ok col
      end
  end.

(** [y = y_i < y_j] *)
Definition labels (y_i y_j : list Qc) : list bool :=
  zip_with (fun a b => bool_decide (a < b)%Qc) y_i y_j.

(** [weights = np.abs(y_i - y_j)] *)
Definition weights (y_i y_j : list Qc) : list Qc :=
  zip_with (fun a b => Qcabs (a - b)) y_i y_j.

(** The body of the two loops of [fit], for one pair [(i, j)]. *)
Definition fit_pair (scenario : ASlibScenario) (config : Configuration)
    (i j : nat) (self : t) : t * option exn :=
  let X := feature_values scenario in
  match performance_column scenario i with
  | Raise e => (self, Some e)
  | Ok y_i =>
      match performance_column scenario j with
      | Raise e => (self, Some e)
      | Ok y_j =>
          let y := labels y_i y_j in
          let w := weights y_i y_j in
          match self_classifier_class self with
          | None => (self, Some TypeError)
          | Some RandomForest =>
              let clf := clf_fit X y config w in
              (Build (self_classifiers self ++ [clf])
                     (self_algorithms self)
                     (self_classifier_class self), None)
          end
      end
  end.

(** [fit(self, scenario, config)]: returns the mutated selector and the
    exception raised, if any. *)
Definition fit (self : t) (scenario : ASlibScenario)
    (config : Configuration) : t * option exn :=
  let self := Build (self_classifiers self)
                    (Some (algorithms scenario))
                    (self_classifier_class self) in
  let n_algos := length (algorithms scenario) in
  for_each (range 0 n_algos)
    (fun i => for_each (range (i + 1) n_algos)
                (fun j => fit_pair scenario config i j))
    self.

(** The cutoff [predict] works with: the scenario's when it is truthy,
    [2**31] otherwise. *)
Definition predict_cutoff (scenario : ASlibScenario) : Qc :=
  match algorithm_cutoff_time scenario with
  | Some c => if truthy (VFloat c) then c else Qc_of_Z (2 ^ 31)
  | None => Qc_of_Z (2 ^ 31)
  end.

(** [scores[mask, a] += 1] *)
Definition add_votes (mask : list bool) (a : nat)
    (scores : list (list nat)) : list (list nat) :=
  zip_with (fun (m : bool) row => if m then alter S a row else row)
           mask scores.

(** The body of the two loops of [predict], for one pair [(i, j)]; the
    state is [(scores, clf_indx)]. *)
Definition predict_pair (self : t) (X : list (list Qc)) (i j : nat)
    (st : list (list nat) * nat) : (list (list nat) * nat) * option exn :=
  let '(scores, clf_indx) := st in
  match self_classifiers self !! clf_indx with
  | None => (st, Some IndexError)
  | Some clf =>
      let Y := map (clf_predict clf) X in
      let scores := add_votes Y i scores in
      let scores := add_votes (map negb Y) j scores in
      ((scores, clf_indx + 1), None)
  end.

(** [np.argmax] of one row: the first position holding the maximum. *)
Fixpoint argmax_from (row : list nat) (pos best_pos best : nat) : nat :=
  match row with
  | [] => best_pos
  | x :: row' =>
      if (best <? x)%nat then argmax_from row' (S pos) pos x
      else argmax_from row' (S pos) best_pos best
  end.

Definition argmax (row : list nat) : nat :=
  match row with
  | [] => 0
  | x :: row' => argmax_from row' 1 0 x
  end.

(** The vote matrix after the two loops of [predict]. *)
Definition predict_scores (self : t) (scenario : ASlibScenario)
    : (list (list nat) * nat) * option exn :=
  let n_algos := length (algorithms scenario) in
  let X := feature_values scenario in
  let scores := replicate (length X) (replicate n_algos 0) in
  for_each (range 0 n_algos)
    (fun i => for_each (range (i + 1) n_algos)
                (fun j => predict_pair self X i j))
    (scores, 0).

(** [[(scenario.algorithms[i], cutoff+1) for i in algo_indx]] *)
Fixpoint picks (scenario : ASlibScenario) (cutoff : Qc)
    (algo_indx : list nat) : result (list (string * Qc)) :=
  match algo_indx with
  | [] => Ok []
  | i :: rest =>
      match algorithms scenario !! i with
      | None => Raise IndexError
      | Some a =>
          match picks scenario cutoff rest with
          | Ok l => Ok ((a, (cutoff + 1)%Qc) :: l)
          | Raise e => Raise e
          end
      end
  end.

(** [predict(self, scenario)].  [np.argmax(scores, axis=1)] raises
    [ValueError] when the matrix has no columns. *)
Definition predict (self : t) (scenario : ASlibScenario)
    : result (gmap string Schedule) :=
  let cutoff := predict_cutoff scenario in
  let n_algos := length (algorithms scenario) in
  match predict_scores self scenario with
  | (_, Some e) => Raise e
  | ((scores, _), None) =>
      if (n_algos =? 0)%nat then Raise ValueError
      else
        let algo_indx := map argmax scores in
        match picks scenario cutoff algo_indx with
        | Raise e => Raise e
        | Ok l =>
            Ok (dict (zip_with (fun s inst => (inst, [s]))
                               l (feature_index scenario)))
        end
  end.

End Selector.

Arguments t : clear implicits.
Arguments Build {Clf}.
Arguments init {Clf}.

(** A hyperparameter of a [ConfigurationSpace], as far as [add_params]
    reads it: a categorical one has its list of choices and its default,
    any other has no [choices]. *)
Inductive SpaceParameter : Type :=
| Categorical (choices : list value) (default : value)
| Numerical.

(** What [add_params] leaves behind: the configuration space it has
    mutated, or the [AttributeError] of reading [choices] where there is
    none. *)
Inductive add_params_outcome : Type :=
| Added (cs : gmap string SpaceParameter)
| AttributeError.

(** [add_params(cs)]: [cs.get_hyperparameter] raises [KeyError] for a name
    the space does not have, which the [except] clause answers by adding
    the hyperparameter. *)
Definition add_params (cs : gmap string SpaceParameter)
    : add_params_outcome :=
  match cs !! "selector" with
  | Some (Categorical choices default) =>
      Added (<["selector" :=
                 Categorical (choices ++ [VStr "PairwiseClassifier"]) default]>
               cs)
  | Some Numerical => AttributeError
  | None =>
      Added (<["selector" :=
                 Categorical [VStr "PairwiseClassifier"]
                             (VStr "PairwiseClassifier")]> cs)
  end.

End PairwiseClassifier.

(** ** [AutoFolio] (autofolio.py) *)

Module AutoFolio.

Import PairwiseClassifier.

(** The hyperparameter classes [_overwrite_configuration] tells apart. *)
Inductive Hyperparameter : Type :=
| UniformIntegerHyperparameter
| UniformFloatHyperparameter
| CategoricalHyperparameter.

(** The four feature preprocessing stages, in pipeline order. *)
Inductive StageClass : Type :=
| FeatureGroupFiltering
| ImputerWrapper
| StandardScalerWrapper
| PCAWrapper.

(** One line written to the logger by the modelled functions. *)
Inductive LogRecord : Type :=
| WarnUnknownParameter (param value : string)
| InfoCVIteration (i : nat).

(** [pairwise(iterable)]: [zip(a, b)] with [b] one step ahead of [a]. *)
Definition pairwise {A : Type} (iterable : list A) : list (A * A) :=
  zip iterable (tail iterable).

Section Orchestrator.

(** *** External collaborators, by their contracts *)

(** the binary classifier *)
Context {Clf : Type}.
Variable clf_fit :
  list (list Qc) -> list bool -> Configuration -> list Qc -> Clf.
Variable clf_predict : Clf -> list Qc -> bool.

(** the preprocessing stages: [stage.fit_transform(scenario, config)]
    and [stage.transform(scenario)] *)
Context {Stage : Type}.
Variable stage_fit_transform :
  StageClass -> ASlibScenario -> Configuration ->
  result (ASlibScenario * Stage).
Variable stage_transform : Stage -> ASlibScenario -> result ASlibScenario.

(** the pre-solver [Aspeed] *)
Context {Aspeed : Type}.
Variable aspeed_fit : ASlibScenario -> Configuration -> result Aspeed.
Variable aspeed_predict :
  Aspeed -> ASlibScenario -> result (gmap string Schedule).

(** [Validator] and the accumulator [Stats] *)
Context {Stats : Type}.
Variable Stats_new : option Qc -> Stats.
Variable Stats_merge : Stats -> Stats -> result Stats.
Variable Stats_show : Stats -> result Qc.
Variable validate_runtime :
  gmap string Schedule -> ASlibScenario -> result Stats.
Variable validate_quality :
  gmap string Schedule -> ASlibScenario -> result Stats.

(** [scenario.get_split(indx=i)]: the test and the training scenario *)
Variable get_split :
  ASlibScenario -> nat -> result (ASlibScenario * ASlibScenario).

(** [int(value)] and [float(value)] on a command line word; [None]
    stands for the [ValueError] of an unreadable word *)
Variable py_int : string -> option Z.
Variable py_float : string -> option Qc.

(** [Configuration(self.cs, values=dict_conf)]: the configuration with
    these values, unless the configuration space rejects them *)
Variable check_configuration :
  gmap string Hyperparameter -> gmap string value -> option exn.

(** *** The attributes of an [AutoFolio] object *)

(** [self.cs]: the class of each hyperparameter of the space *)
Variable self_cs : gmap string Hyperparameter.
(** [self.overwrite_args]: [None], or the words given on the command
    line *)
Variable self_overwrite_args : option (list string).

(** *** [_overwrite_configuration] *)

(** The body of the loop, for one pair [(param, value)]; the state is
    the dictionary [dict_conf] and the log. *)
Definition overwrite_step (pv : string * string)
    (st : gmap string value * list LogRecord)
    : (gmap string value * list LogRecord) * option exn :=
  let '(param, value) := pv in
  let '(dict_conf, log) := st in
  if truthy (default VNone (dict_conf !! param)) then
    match self_cs !! param with
    | None => (st, Some KeyError)
    | Some UniformIntegerHyperparameter =>
        match py_int value with
        | None => (st, Some ValueError)
        | Some z => ((<[param := VInt z]> dict_conf, log), None)
        end
    | Some UniformFloatHyperparameter =>
        match py_float value with
        | None => (st, Some ValueError)
        | Some q => ((<[param := VFloat q]> dict_conf, log), None)
        end
    | Some _ =>
        if bool_decide (value = "True") then
          ((<[param := VBool true]> dict_conf, log), None)
        else if bool_decide (value = "False") then
          ((<[param := VBool false]> dict_conf, log), None)
        else ((<[param := VStr value]> dict_conf, log), None)
    end
  else
    ((dict_conf, log ++ [WarnUnknownParameter param value]), None).

(** The [for] loop of [_overwrite_configuration] over
    [config.get_dictionary()]. *)
Definition overwrite_loop (config : Configuration)
    (overwrite_args : list string)
    : (gmap string value * list LogRecord) * option exn :=
  for_each (pairwise overwrite_args) overwrite_step (config, []).

Definition _overwrite_configuration (config : Configuration)
    (overwrite_args : list string) : list LogRecord * result Configuration :=
  match overwrite_loop config overwrite_args with
  | ((_, log), Some e) => (log, Raise e)
  | ((dict_conf, log), None) =>
      match check_configuration self_cs dict_conf with
      | Some e => (log, Raise e)
      | None => (log, Ok dict_conf)
      end
  end.

(** *** [fit] and its parts *)

Definition fit_transform_feature_preprocessing
    (scenario : ASlibScenario) (config : Configuration)
    : result (ASlibScenario * list Stage) :=
  '(scenario, fgf) ← stage_fit_transform FeatureGroupFiltering scenario config;
  '(scenario, imputer) ← stage_fit_transform ImputerWrapper scenario config;
  '(scenario, scaler) ← stage_fit_transform StandardScalerWrapper scenario config;
  '(scenario, pca) ← stage_fit_transform PCAWrapper scenario config;
  mret (scenario, [fgf; imputer; scaler; pca]).

Definition fit_pre_solving (scenario : ASlibScenario)
    (config : Configuration) : result (option Aspeed) :=
  if bool_decide (performance_type scenario = "runtime") then
    aspeed ← aspeed_fit scenario config;
    mret (Some aspeed)
  else mret None.

(** [fit_selector]: the local [selector] is bound only inside the [if];
    reading it unbound at [return selector] raises. *)
Definition fit_selector (scenario : ASlibScenario)
    (config : Configuration) : result (PairwiseClassifier.t Clf) :=
  if bool_decide (config !! "selector" = Some (VStr "PairwiseClassifier"))
  then
    let clf_class :=
      if bool_decide (config !! "classifier" = Some (VStr "RandomForest"))
      then Some RandomForest else None in
    let selector := PairwiseClassifier.init clf_class in
    match PairwiseClassifier.fit clf_fit selector scenario config with
    | (selector, None) => Ok selector
    | (_, Some e) => Raise e
    end
  else Raise UnboundLocalError.

Definition fit (scenario : ASlibScenario) (config : Configuration)
    : result (list Stage * option Aspeed * PairwiseClassifier.t Clf) :=
  config ←
    match self_overwrite_args with
    | Some ((_ :: _) as args) => (_overwrite_configuration config args).2
    | _ => mret config
    end;
  '(scenario, feature_pre_pipeline) ←
    fit_transform_feature_preprocessing scenario config;
  pre_solver ← fit_pre_solving scenario config;
  selector ← fit_selector scenario config;
  mret (feature_pre_pipeline, pre_solver, selector).

(** *** [predict] *)

(** The last statement of [predict] ("combine schedules"). *)
Definition combine_schedules
    (pre_solving_schedule pred_schedules : gmap string Schedule)
    : gmap string Schedule :=
  if bool_decide (pre_solving_schedule = ∅) then pred_schedules
  else
    dict (map (fun '(inst, schedule) =>
                 (inst, default [] (pre_solving_schedule !! inst)
                          ++ schedule))
              (map_to_list pred_schedules)).

Fixpoint transform_all (feature_pre_pipeline : list Stage)
    (scenario : ASlibScenario) : result ASlibScenario :=
  match feature_pre_pipeline with
  | [] => Ok scenario
  | f_pre :: rest =>
      scenario ← stage_transform f_pre scenario;
      transform_all rest scenario
  end.

Definition predict (scenario : ASlibScenario) (config : Configuration)
    (feature_pre_pipeline : list Stage) (pre_solver : option Aspeed)
    (selector : PairwiseClassifier.t Clf)
    : result (gmap string Schedule) :=
  scenario ← transform_all feature_pre_pipeline scenario;
  pre_solving_schedule ←
    match pre_solver with
    | Some aspeed => aspeed_predict aspeed scenario
    | None => mret ∅
    end;
  pred_schedules ←
    PairwiseClassifier.predict clf_predict selector scenario;
  mret (combine_schedules pre_solving_schedule pred_schedules).

(** *** [run_cv] *)

(** One iteration of the loop over the folds; the state is the
    accumulator [cv_stat] and the log. *)
Definition cv_fold (config : Configuration) (scenario : ASlibScenario)
    (i : nat) (st : Stats * list LogRecord)
    : (Stats * list LogRecord) * option exn :=
  let '(cv_stat, log) := st in
  let log := log ++ [InfoCVIteration i] in
  let r :=
    '(test_scenario, training_scenario) ← get_split scenario i;
    '(feature_pre_pipeline, pre_solver, selector) ←
      fit training_scenario config;
    schedules ←
      predict test_scenario config feature_pre_pipeline pre_solver selector;
    stats ←
      (if bool_decide (performance_type scenario = "runtime") then
         validate_runtime schedules test_scenario
       else if bool_decide (performance_type scenario = "solution_quality")
       then validate_quality schedules test_scenario
       else Raise ValueError);
    Stats_merge cv_stat stats in
  match r with
  | Ok cv_stat => ((cv_stat, log), None)
  | Raise e => ((cv_stat, log), Some e)
  end.

(** The accumulator [cv_stat] the [try] block of [run_cv] starts
    with. *)
Definition cv_stat_new (scenario : ASlibScenario) : Stats :=
  if bool_decide (performance_type scenario = "runtime")
  then Stats_new (algorithm_cutoff_time scenario)
  else Stats_new (Some 0%Qc).

(** The [try] block of [run_cv]. *)
Definition cv_try (config : Configuration) (scenario : ASlibScenario)
    (folds : nat) : list LogRecord * result Qc :=
  let cv_stat := cv_stat_new scenario in
  match for_each (range 1 (folds + 1)) (cv_fold config scenario)
                 (cv_stat, []) with
  | ((_, log), Some e) => (log, Raise e)
  | ((cv_stat, log), None) => (log, Stats_show cv_stat)
  end.

(** [run_cv(self, config, scenario, folds)]: the log written by the
    loop, and the value returned or the exception raised.  A missing
    cutoff makes the products of the [except] branch a [TypeError]. *)
Definition run_cv (config : Configuration) (scenario : ASlibScenario)
    (folds : nat) : list LogRecord * result Qc :=
  let '(log, r) := cv_try config scenario folds in
  let par10 :=
    match r with
    | Raise ValueError =>
        match algorithm_cutoff_time scenario with
        | None => Raise TypeError
        | Some cutoff =>
            if negb (maximize scenario) then Ok (cutoff * Qc_of_Z 10)%Qc
            else Ok (cutoff * Qc_of_Z (-10))%Qc
        end
    | r => r
    end in
  (log,
   par10 ← par10;
   if maximize scenario then mret (par10 * Qc_of_Z (-1))%Qc
   else mret par10).

(** *** [read_model_and_predict] *)

(** [read_model_and_predict], from the model [pickle.load] has returned
    (the scenario with its [feature_names], the pipeline, the pre-solver,
    the selector and the configuration) to the schedule it prints.  The
    frame of the one pseudo instance cannot be built ([ValueError]) unless
    the feature vector has one value for each feature name. *)
Definition read_model_and_predict (scenario : ASlibScenario)
    (feature_names : list string) (feature_pre_pipeline : list Stage)
    (pre_solver : option Aspeed) (selector : PairwiseClassifier.t Clf)
    (config : Configuration) (feature_vec : list Qc) : result Schedule :=
  if bool_decide (length feature_vec = length feature_names) then
    let scenario := {|
      algorithms := algorithms scenario;
      feature_data := [("pseudo_instance", feature_vec)];
      performance_data := performance_data scenario;
      performance_type := performance_type scenario;
      algorithm_cutoff_time := algorithm_cutoff_time scenario;
      maximize := maximize scenario
    |} in
    pred ← predict scenario config feature_pre_pipeline pre_solver selector;
    match pred !! "pseudo_instance" with
    | Some schedule => Ok schedule
    | None => Raise KeyError
    end
  else Raise ValueError.

End Orchestrator.

End AutoFolio.

(** * Vocabulary of the properties *)

(** The canonical enumeration of the unordered pairs of [n] algorithms:
    [i] ascending, and for each [i] the [j > i] ascending. *)
Definition canonical_pairs (n : nat) : list (nat * nat) :=
  flat_map (fun i => map (pair i) (range (i + 1) n)) (range 0 n).

(** The order of that enumeration: by first component, then by second. *)
Definition pair_before (p q : nat * nat) : Prop :=
  p.1 < q.1 \/ (p.1 = q.1 /\ p.2 < q.2).

(** Whether performance value [a] is strictly better than [b]: smaller is
    better, unless the scenario maximizes. *)
Definition strictly_better (maximize : bool) (a b : Qc) : Prop :=
  if maximize then (b < a)%Qc else (a < b)%Qc.

(** Every algorithm of the scenario has a column of performance values. *)
Definition complete_performance (scenario : ASlibScenario) : Prop :=
  Forall (fun a => is_Some (performance_data scenario !! a))
         (algorithms scenario).

(** The performance column of the [i]-th algorithm, empty if there is
    none. *)
Definition column (scenario : ASlibScenario) (i : nat) : list Qc :=
  match algorithms scenario !! i with
  | Some name => default [] (performance_data scenario !! name)
  | None => []
  end.

Section FitVocabulary.

Import PairwiseClassifier.

Context {Clf : Type}.
Variable clf_fit :
  list (list Qc) -> list bool -> Configuration -> list Qc -> Clf.

(** The classifier [fit] builds for the pair [p = (i, j)]. *)
Definition pair_classifier (scenario : ASlibScenario)
    (config : Configuration) (p : nat * nat) : Clf :=
  clf_fit (feature_values scenario)
          (labels (column scenario p.1) (column scenario p.2))
          config
          (weights (column scenario p.1) (column scenario p.2)).

End FitVocabulary.

Section PredictVocabulary.

Context {Clf : Type}.
Variable clf_predict : Clf -> list Qc -> bool.

(** The algorithm the classifier of pair [p = (i, j)] favours on the
    instance with features [x]: [i] on answer 1, [j] on answer 0. *)
Definition winner (clf : Clf) (x : list Qc) (p : nat * nat) : nat :=
  if clf_predict clf x then p.1 else p.2.

(** The number of votes algorithm [a] receives on the instance with
    features [x] from the classifiers [cps], each given with its pair. *)
Definition votes (cps : list (Clf * (nat * nat))) (x : list Qc) (a : nat)
    : nat :=
  length (filter (fun cp => winner cp.1 x cp.2 = a) cps).

(** The two updates of the vote matrix for one pair. *)
Definition cast_votes (X : list (list Qc)) (scores : list (list nat))
    (cp : Clf * (nat * nat)) : list (list nat) :=
  let Y := map (clf_predict cp.1) X in
  PairwiseClassifier.add_votes (map negb Y) cp.2.2
    (PairwiseClassifier.add_votes Y cp.2.1 scores).

End PredictVocabulary.

(** [a] holds the maximum of [row], and is the lowest position to do so. *)
Definition first_maximum (row : list nat) (a : nat) : Prop :=
  exists m, row !! a = Some m /\
    (forall b v, row !! b = Some v -> v <= m) /\
    (forall b v, b < a -> row !! b = Some v -> v < m).

(** ** Concrete collaborators and scenarios *)

Module Example.

Import PairwiseClassifier.

(** A learner that stores its training set and answers with the label of
    the first training row equal to the row asked about, 0 if there is
    none: on its training data its prediction reproduces the labels. *)
Definition memo_fit (X : list (list Qc)) (y : list bool)
    (config : Configuration) (w : list Qc) : list (list Qc * bool) :=
  zip X y.

Definition memo_predict (clf : list (list Qc * bool)) (row : list Qc)
    : bool :=
  match list_find (fun p => p.1 = row) clf with
  | Some (_, (_, b)) => b
  | None => false
  end.

(** A learner that stores the arguments of its [fit] call. *)
Record FitCall : Type := {
  call_X : list (list Qc);
  call_y : list bool;
  call_config : Configuration;
  call_weights : list Qc
}.

Definition record_fit := Build_FitCall.

Definition features : list (string * list Qc) :=
  [("inst1", [Qc_of_Z 1]); ("inst2", [Qc_of_Z 2]); ("inst3", [Qc_of_Z 3])].

Definition performances (a1 a2 : string) : gmap string (list Qc) :=
  <[a1 := [Qc_of_Z 1; Qc_of_Z 100; Qc_of_Z 50]]>
    (<[a2 := [Qc_of_Z 100; Qc_of_Z 1; Qc_of_Z 50]]> ∅).

(** Two algorithms, three instances, runtimes A1 = 1, 100, 50 and
    A2 = 100, 1, 50, cutoff 200. *)
Definition two_algorithms : ASlibScenario := {|
  algorithms := ["A1"; "A2"];
  feature_data := features;
  performance_data := performances "A1" "A2";
  performance_type := "runtime";
  algorithm_cutoff_time := Some (Qc_of_Z 200);
  maximize := false
|}.

(** The same data with the maximize flag set. *)
Definition maximizing : ASlibScenario := {|
  algorithms := ["A1"; "A2"];
  feature_data := features;
  performance_data := performances "A1" "A2";
  performance_type := "solution_quality";
  algorithm_cutoff_time := Some (Qc_of_Z 200);
  maximize := true
|}.

(** The same data with the two algorithms listed in the other order. *)
Definition swapped : ASlibScenario := {|
  algorithms := ["A2"; "A1"];
  feature_data := features;
  performance_data := performances "A1" "A2";
  performance_type := "runtime";
  algorithm_cutoff_time := Some (Qc_of_Z 200);
  maximize := false
|}.

(** A scenario with a single algorithm. *)
Definition single_algorithm : ASlibScenario := {|
  algorithms := ["A1"];
  feature_data := features;
  performance_data := performances "A1" "A2";
  performance_type := "runtime";
  algorithm_cutoff_time := Some (Qc_of_Z 200);
  maximize := false
|}.

(** A maximizing scenario whose performance type is not a known one. *)
Definition unknown_type : ASlibScenario := {|
  algorithms := ["A1"; "A2"];
  feature_data := features;
  performance_data := performances "A1" "A2";
  performance_type := "memory";
  algorithm_cutoff_time := Some (Qc_of_Z 200);
  maximize := true
|}.

(** The selector fitted on [two_algorithms]. *)
Definition fitted : PairwiseClassifier.t (list (list Qc * bool)) :=
  (fit memo_fit (init (Some RandomForest)) two_algorithms ∅).1.

(** A configuration choosing the pairwise selector on random forests. *)
Definition pairwise_config : Configuration :=
  <["selector" := VStr "PairwiseClassifier"]>
    (<["classifier" := VStr "RandomForest"]>
       (<["pca" := VBool false]>
          (<["rf:n_estimators" := VInt 10]> ∅))).

Definition space : gmap string AutoFolio.Hyperparameter :=
  <["selector" := AutoFolio.CategoricalHyperparameter]>
    (<["classifier" := AutoFolio.CategoricalHyperparameter]>
       (<["pca" := AutoFolio.CategoricalHyperparameter]>
          (<["rf:n_estimators" := AutoFolio.UniformIntegerHyperparameter]>
             ∅))).

(** Collaborators that do nothing: stages that leave the scenario as it
    is, a pre-solver with an empty schedule for every instance, a
    validator and an accumulator that sum to zero, a split that tests on
    the training data. *)
Definition stage_fit_transform (c : AutoFolio.StageClass)
    (scenario : ASlibScenario) (config : Configuration)
    : result (ASlibScenario * unit) := Ok (scenario, tt).
Definition stage_transform (stage : unit) (scenario : ASlibScenario)
    : result ASlibScenario := Ok scenario.
Definition aspeed_fit (scenario : ASlibScenario) (config : Configuration)
    : result unit := Ok tt.
Definition aspeed_predict (aspeed : unit) (scenario : ASlibScenario)
    : result (gmap string Schedule) :=
  Ok (dict (map (fun inst => (inst, [])) (feature_index scenario))).
Definition Stats_new (cutoff : option Qc) : Qc := 0%Qc.
Definition Stats_merge (a b : Qc) : result Qc := Ok (a + b)%Qc.
Definition Stats_show (a : Qc) : result Qc := Ok a.
Definition validate (schedules : gmap string Schedule)
    (scenario : ASlibScenario) : result Qc := Ok 0%Qc.
Definition get_split (scenario : ASlibScenario) (i : nat)
    : result (ASlibScenario * ASlibScenario) := Ok (scenario, scenario).
Definition py_int (s : string) : option Z :=
  if bool_decide (s = "20") then Some 20%Z else None.
Definition py_float (s : string) : option Qc := None.
Definition check_configuration
    (cs : gmap string AutoFolio.Hyperparameter) (d : gmap string value)
    : option exn := None.

(** [run_cv] and the iteration of its loop with these collaborators. *)
Definition run_cv :=
  AutoFolio.run_cv memo_fit memo_predict stage_fit_transform
    stage_transform aspeed_fit aspeed_predict Stats_new Stats_merge
    Stats_show validate validate get_split py_int py_float
    check_configuration space None.

Definition cv_fold :=
  AutoFolio.cv_fold memo_fit memo_predict stage_fit_transform
    stage_transform aspeed_fit aspeed_predict Stats_merge
    validate validate get_split py_int py_float
    check_configuration space None.

End Example.

(** ** The selector's contract, as a reading of the code would state it *)

Section Contracts.

Import PairwiseClassifier.

(** The labels of the recorded [fit] calls follow the scenario's
    convention: for the [k]-th pair [(i, j)], an instance is labelled 1
    exactly when algorithm [i] is strictly better on it than [j]. *)
Definition labels_follow_convention (scenario : ASlibScenario)
    (calls : list Example.FitCall) : Prop :=
  forall k i j call n a b,
    canonical_pairs (length (algorithms scenario)) !! k = Some (i, j) ->
    calls !! k = Some call ->
    column scenario i !! n = Some a ->
    column scenario j !! n = Some b ->
    (Example.call_y call !! n = Some true <->
     strictly_better (maximize scenario) a b) /\
    (Example.call_y call !! n = Some false <->
     ~ strictly_better (maximize scenario) a b).

Context {Clf : Type}.
Variable clf_fit :
  list (list Qc) -> list bool -> Configuration -> list Qc -> Clf.
Variable clf_predict : Clf -> list Qc -> bool.

(** [fit] rejects a scenario with fewer than two algorithms. *)
Definition fit_rejects_few_algorithms (self : t Clf)
    (scenario : ASlibScenario) (config : Configuration) : Prop :=
  length (algorithms scenario) < 2 ->
  exists e, (fit clf_fit self scenario config).2 = Some e.

(** [predict] rejects a scenario whose algorithms are not those the
    selector was fitted on, in the same order. *)
Definition predict_rejects_other_algorithms (self : t Clf)
    (scenario : ASlibScenario) : Prop :=
  self_algorithms self <> Some (algorithms scenario) ->
  exists e, predict clf_predict self scenario = Raise e.

End Contracts.

(** The fallback of [run_cv]: ten times the cutoff, negated when the
    scenario maximizes. *)
Definition cv_fallback_value (scenario : ASlibScenario) (r : result Qc)
    : Prop :=
  exists cutoff,
    algorithm_cutoff_time scenario = Some cutoff /\
    r = Ok (if maximize scenario then (cutoff * Qc_of_Z (-10))%Qc
            else (cutoff * Qc_of_Z 10)%Qc).

(** ** Further scenarios *)

Module Cases.

(** Two algorithms, the second without a column of performance values. *)
Definition missing_column : ASlibScenario := {|
  algorithms := ["A1"; "A3"];
  feature_data := Example.features;
  performance_data := Example.performances "A1" "A2";
  performance_type := "runtime";
  algorithm_cutoff_time := Some (Qc_of_Z 200);
  maximize := false
|}.

(** A configuration choosing the pairwise selector on a classifier that
    [fit_selector] does not know. *)
Definition other_classifier_config : Configuration :=
  <["selector" := VStr "PairwiseClassifier"]>
    (<["classifier" := VStr "SVM"]> ∅).

(** A pre-solver that is its static schedule: [predict] returns it for
    every instance of the scenario. *)
Definition static_predict (aspeed : Schedule) (scenario : ASlibScenario)
    : result (gmap string Schedule) :=
  Ok (dict (map (fun inst => (inst, aspeed)) (feature_index scenario))).

End Cases.

(** Algorithm [a] is one of the two algorithms of the pair [p]. *)
Definition takes_part (a : nat) (p : nat * nat) : Prop :=
  p.1 = a \/ p.2 = a.

Global Instance takes_part_dec (a : nat) (p : nat * nat) :
  Decision (takes_part a p).
Proof. unfold takes_part. apply _. Defined.

(** * Properties *)

(** ** Loops and dictionaries *)

Section Loops.

Context {S X : Type}.

Lemma for_each_app (l1 l2 : list X) (body : X -> S -> S * option exn) s :
  for_each (l1 ++ l2) body s =
  match for_each l1 body s with
  | (s', None) => for_each l2 body s'
  | r => r
  end.
Proof.
  revert s. induction l1 as [|x l1 IH]; intros s; simpl; [done|].
  destruct (body x s) as [s' [e|]]; [done|]. apply IH.
Qed.

(** A loop none of whose iterations raises is a left fold. *)
Lemma for_each_total (l : list X) (body : X -> S -> S * option exn)
    (step : S -> X -> S) s :
  (forall x s', x ∈ l -> body x s' = (step s' x, None)) ->
  for_each l body s = (foldl step s l, None).
Proof.
  revert s. induction l as [|x l IH]; intros s Hb; simpl; [done|].
  rewrite Hb by left. apply IH. intros y s' Hy. apply Hb. by right.
Qed.

(** An exception in the first iteration ends the loop there. *)
Lemma for_each_raise (x : X) (l : list X) body (s s' : S) e :
  body x s = (s', Some e) -> for_each (x :: l) body s = (s', Some e).
Proof. intros H. simpl. by rewrite H. Qed.

End Loops.

(** Two nested [for] loops over [range] visit the canonical enumeration. *)
Lemma for_each_nested {S : Type} (n : nat)
    (body : nat -> nat -> S -> S * option exn) (s : S) :
  for_each (range 0 n)
    (fun i => for_each (range (i + 1) n) (fun j => body i j)) s =
  for_each (canonical_pairs n) (fun p => body p.1 p.2) s.
Proof.
  unfold canonical_pairs. generalize (range 0 n) as is_. intros is_.
  revert s. induction is_ as [|i is_ IH]; intros s; simpl; [done|].
  rewrite for_each_app.
  assert (Hin : forall l s0,
             for_each (map (pair i) l) (fun p => body p.1 p.2) s0 =
             for_each l (fun j => body i j) s0).
  { induction l as [|j l IHl]; intros s0; simpl; [done|].
    destruct (body i j s0) as [s1 [e|]]; [done|]. apply IHl. }
  rewrite Hin.
  destruct (for_each (range (i + 1) n) (fun j => body i j) s) as [s' [e|]];
    [done|]. apply IH.
Qed.

Lemma elem_of_range (lo hi k : nat) : k ∈ range lo hi <-> lo <= k < hi.
Proof. unfold range. rewrite elem_of_seq. lia. Qed.

Lemma elem_of_canonical_pairs (n i j : nat) :
  (i, j) ∈ canonical_pairs n <-> i < j < n.
Proof.
  unfold canonical_pairs. rewrite list_elem_of_In, in_flat_map. split.
  - intros (i' & Hi' & Hp). apply list_elem_of_In, list_elem_of_fmap in Hp.
    destruct Hp as (j' & [= -> ->] & Hj'). apply elem_of_range in Hj'. lia.
  - intros H. exists i. split.
    + apply list_elem_of_In, elem_of_range. lia.
    + apply list_elem_of_In, list_elem_of_fmap. exists j. split; [done|].
      apply elem_of_range. lia.
Qed.

Lemma canonical_pairs_prefix_length (n k : nat) :
  k <= n ->
  2 * length (flat_map (fun i => map (pair i) (range (i + 1) n)) (seq 0 k))
    + k * (k + 1) = 2 * k * n.
Proof.
  induction k as [|k IH]; intros Hk; [done|].
  specialize (IH ltac:(lia)).
  rewrite seq_S, flat_map_app, length_app. cbn [flat_map Nat.add].
  rewrite app_nil_r, length_map. unfold range at 2. rewrite length_seq.
  set (L := length _) in *. nia.
Qed.

Lemma canonical_pairs_length (n : nat) :
  length (canonical_pairs n) = n * (n - 1) / 2.
Proof.
  pose proof (canonical_pairs_prefix_length n n (Nat.le_refl n)) as H.
  unfold canonical_pairs, range at 2. rewrite Nat.sub_0_r.
  apply Nat.div_unique_exact; [done|]. nia.
Qed.

Lemma canonical_pairs_NoDup (n : nat) : NoDup (canonical_pairs n).
Proof.
  unfold canonical_pairs.
  assert (Hgen : forall (g : nat -> list nat) (l : list nat),
             NoDup l -> (forall i, NoDup (g i)) ->
             NoDup (flat_map (fun i => map (pair i) (g i)) l)).
  { intros g l Hl Hg. induction Hl as [|i l Hi Hl IH]; simpl; [constructor|].
    apply NoDup_app. split_and!; [|  |done].
    - apply (NoDup_fmap_2 _), Hg.
    - intros [i' j] Hin Hin'. apply list_elem_of_fmap in Hin.
      destruct Hin as (j' & [= -> ->] & _).
      apply list_elem_of_In, in_flat_map in Hin'.
      destruct Hin' as (i'' & Hi'' & Hp).
      apply list_elem_of_In, list_elem_of_fmap in Hp.
      destruct Hp as (j'' & [= -> ->] & _).
      apply Hi. by apply list_elem_of_In. }
  apply Hgen; intros; apply NoDup_seq.
Qed.

Lemma seq_StronglySorted (a n : nat) : StronglySorted lt (seq a n).
Proof.
  revert a. induction n as [|n IH]; intros a; simpl; constructor; [done|].
  apply Forall_forall. intros b Hb. apply elem_of_seq in Hb. lia.
Qed.

Lemma canonical_pairs_sorted (n : nat) :
  StronglySorted pair_before (canonical_pairs n).
Proof.
  unfold canonical_pairs.
  assert (Hgen : forall (g : nat -> list nat) (l : list nat),
             StronglySorted lt l -> (forall i, StronglySorted lt (g i)) ->
             StronglySorted pair_before
               (flat_map (fun i => map (pair i) (g i)) l)).
  { intros g l Hl Hg. induction Hl as [|i l Hl IH Hi]; simpl; [constructor|].
    apply StronglySorted_app. split_and!; [|  |done].
    - intros [i1 j1] [i2 j2] H1 H2.
      apply list_elem_of_fmap in H1 as (j & [= -> ->] & _).
      apply list_elem_of_In, in_flat_map in H2 as (i' & Hi' & H2).
      apply list_elem_of_In, list_elem_of_fmap in H2 as (j' & [= -> ->] & _).
      left. simpl. apply (proj1 (Forall_forall _ _) Hi).
      by apply list_elem_of_In.
    - specialize (Hg i). induction Hg as [|j js Hjs IHjs Hj]; simpl;
        constructor; [done|].
      apply Forall_fmap, Forall_forall. intros j' Hj'. right. simpl.
      split; [done|]. by apply (proj1 (Forall_forall _ _) Hj). }
  apply Hgen; intros; apply seq_StronglySorted.
Qed.

Lemma canonical_pairs_small (n : nat) : n < 2 -> canonical_pairs n = [].
Proof. destruct n as [|[|n]]; [done..|lia]. Qed.

(** [dict] keeps the last item of each key: it is [list_to_map] of the
    reversed list. *)
Lemma dict_list_to_map {V : Type} (items : list (string * V)) :
  dict items = list_to_map (reverse items).
Proof.
  unfold dict. rewrite <-(reverse_involutive items) at 1.
  generalize (reverse items) as l. intros l.
  induction l as [|kv l IH]; [done|].
  rewrite reverse_cons, foldl_app. simpl. by rewrite IH.
Qed.

Lemma dict_lookup_NoDup {V : Type} (items : list (string * V)) k v :
  NoDup items.*1 -> (k, v) ∈ items -> dict items !! k = Some v.
Proof.
  intros Hnd Hin. rewrite dict_list_to_map.
  apply elem_of_list_to_map_1.
  - by rewrite fmap_reverse, reverse_Permutation.
  - by apply elem_of_reverse.
Qed.

Lemma dict_lookup_None {V : Type} (items : list (string * V)) k :
  k ∉ items.*1 -> dict items !! k = None.
Proof.
  intros Hk. rewrite dict_list_to_map. apply not_elem_of_list_to_map_1.
  by rewrite fmap_reverse, elem_of_reverse.
Qed.

(** ** The pairwise selector: [fit] *)

Section FitProperties.

Import PairwiseClassifier.

Context {Clf : Type}.
Variable clf_fit :
  list (list Qc) -> list bool -> Configuration -> list Qc -> Clf.

Lemma performance_column_complete scenario i :
  complete_performance scenario -> i < length (algorithms scenario) ->
  performance_column scenario i = Ok (column scenario i).
Proof.
  intros Hc Hi. unfold performance_column, column.
  destruct (lookup_lt_is_Some_2 _ _ Hi) as [name Hn]. rewrite Hn.
  apply list_elem_of_lookup_2 in Hn.
  destruct (proj1 (Forall_forall _ _) Hc name Hn) as [col ->]. done.
Qed.

Lemma fit_pairs_ok scenario config (l : list (nat * nat)) (self : t Clf) :
  complete_performance scenario ->
  self_classifier_class self = Some RandomForest ->
  (forall i j, (i, j) ∈ l -> i < j < length (algorithms scenario)) ->
  for_each l (fun p => fit_pair clf_fit scenario config p.1 p.2) self =
  (Build (self_classifiers self ++ map (pair_classifier clf_fit scenario config) l)
         (self_algorithms self) (self_classifier_class self), None).
Proof.
  intros Hc. revert self. induction l as [|[i j] l IH]; intros self Hcls Hl.
  - simpl. rewrite app_nil_r. by destruct self.
  - simpl. unfold fit_pair at 1.
    destruct (Hl i j ltac:(left)) as [Hij Hj].
    rewrite !performance_column_complete by (done || lia).
    rewrite Hcls. rewrite IH; [|done|intros; apply Hl; by right].
    simpl. by rewrite <-app_assoc.
Qed.

(** What [fit] does when nothing in it raises. *)
Lemma fit_ok (self : t Clf) scenario config :
  complete_performance scenario ->
  self_classifier_class self = Some RandomForest ->
  fit clf_fit self scenario config =
  (Build (self_classifiers self ++
            map (pair_classifier clf_fit scenario config)
                (canonical_pairs (length (algorithms scenario))))
         (Some (algorithms scenario)) (Some RandomForest), None).
Proof.
  intros Hc Hcls. unfold fit.
  rewrite (for_each_nested _ (fit_pair clf_fit scenario config)).
  rewrite fit_pairs_ok.
  - simpl. by rewrite Hcls.
  - done.
  - done.
  - intros i j. apply elem_of_canonical_pairs.
Qed.

Lemma labels_lookup (y_i y_j : list Qc) n a b :
  y_i !! n = Some a -> y_j !! n = Some b ->
  labels y_i y_j !! n = Some (bool_decide (a < b)%Qc).
Proof.
  intros Ha Hb. unfold labels. rewrite lookup_zip_with, Ha. simpl.
  by rewrite Hb.
Qed.

Lemma weights_lookup (y_i y_j : list Qc) n a b :
  y_i !! n = Some a -> y_j !! n = Some b ->
  weights y_i y_j !! n = Some (Qcabs (a - b)).
Proof.
  intros Ha Hb. unfold weights. rewrite lookup_zip_with, Ha. simpl.
  by rewrite Hb.
Qed.

End FitProperties.

(** ** The pairwise selector: [predict] *)

Section PredictProperties.

Import PairwiseClassifier.

Context {Clf : Type}.
Variable clf_predict : Clf -> list Qc -> bool.

(** The loop of [predict] takes the classifiers in storage order, one per
    pair visited, and raises once they run out. *)
Lemma predict_pairs_ok (self : t Clf) X (l : list (nat * nat)) scores k :
  k + length l <= length (self_classifiers self) ->
  for_each l (fun p => predict_pair clf_predict self X p.1 p.2) (scores, k) =
  ((foldl (cast_votes clf_predict X) scores
          (zip (drop k (self_classifiers self)) l), k + length l), None).
Proof.
  revert scores k. induction l as [|[i j] l IH]; intros scores k Hk.
  - simpl. rewrite Nat.add_0_r. by destruct (drop k _).
  - simpl in Hk. simpl.
    destruct (lookup_lt_is_Some_2 (self_classifiers self) k ltac:(lia))
      as [clf Hclf].
    rewrite Hclf, (drop_S _ _ _ Hclf). simpl.
    rewrite IH by lia. replace (k + 1) with (S k) by lia.
    unfold cast_votes at 3. simpl. do 2 f_equal. lia.
Qed.

Lemma predict_pairs_short (self : t Clf) X (l : list (nat * nat)) scores k :
  length (self_classifiers self) < k + length l ->
  k <= length (self_classifiers self) ->
  (for_each l (fun p => predict_pair clf_predict self X p.1 p.2)
            (scores, k)).2 = Some IndexError.
Proof.
  revert scores k. induction l as [|[i j] l IH]; intros scores k Hk Hk'.
  - simpl in Hk. lia.
  - simpl in Hk. simpl.
    destruct (self_classifiers self !! k) as [clf|] eqn:Hclf; [|done].
    apply lookup_lt_Some in Hclf. apply IH; lia.
Qed.

Lemma zip_with_map_same {A B C D : Type} (f : B -> C -> D)
    (g : A -> B) (h : A -> C) (l : list A) :
  zip_with f (map g l) (map h l) = map (fun x => f (g x) (h x)) l.
Proof. induction l as [|x l IH]; simpl; [done|]. by rewrite IH. Qed.

Lemma alter_map_seq (f : nat -> nat) (n a : nat) :
  alter S a (map f (seq 0 n)) =
  map (fun b => if decide (a = b) then S (f b) else f b) (seq 0 n).
Proof.
  apply list_eq. intros b.
  destruct (decide (a = b)) as [->|Hne].
  - rewrite list_lookup_alter_eq, !list_lookup_fmap.
    destruct (seq 0 n !! b) as [b'|] eqn:Hb; simpl; [|done].
    apply lookup_seq in Hb as [-> _]. simpl. by rewrite decide_True.
  - rewrite list_lookup_alter_ne by done. rewrite !list_lookup_fmap.
    destruct (seq 0 n !! b) as [b'|] eqn:Hb; simpl; [|done].
    apply lookup_seq in Hb as [-> _]. simpl. by rewrite decide_False.
Qed.

Lemma votes_single (cp : Clf * (nat * nat)) x a :
  votes clf_predict [cp] x a =
  if decide (winner clf_predict cp.1 x cp.2 = a) then 1 else 0.
Proof.
  unfold votes. rewrite filter_cons, filter_nil.
  by destruct (decide (winner clf_predict cp.1 x cp.2 = a)).
Qed.

(** One pair adds one vote, to its winner, in every row. *)
Lemma cast_votes_map (X : list (list Qc)) (f : list Qc -> nat -> nat)
    (n : nat) (cp : Clf * (nat * nat)) :
  cast_votes clf_predict X (map (fun x => map (f x) (seq 0 n)) X) cp =
  map (fun x => map (fun a => f x a + votes clf_predict [cp] x a) (seq 0 n))
      X.
Proof.
  unfold cast_votes, add_votes. rewrite zip_with_map_same.
  rewrite <-list_fmap_compose.
  rewrite (zip_with_map_same _ (negb ∘ clf_predict cp.1)).
  apply map_ext. intros x. simpl.
  transitivity (alter S (winner clf_predict cp.1 x cp.2)
                      (map (f x) (seq 0 n))).
  { unfold winner. by destruct (clf_predict cp.1 x). }
  rewrite alter_map_seq. apply map_ext. intros a.
  rewrite votes_single. destruct (decide (_ = a)); lia.
Qed.

Lemma votes_cons (cp : Clf * (nat * nat)) cps x a :
  votes clf_predict (cp :: cps) x a =
  votes clf_predict [cp] x a + votes clf_predict cps x a.
Proof.
  unfold votes. rewrite !filter_cons.
  destruct (decide (winner clf_predict cp.1 x cp.2 = a)); done.
Qed.

(** After the loop, every cell of the matrix holds a vote count. *)
Lemma cast_votes_foldl (X : list (list Qc)) (n : nat)
    (cps : list (Clf * (nat * nat))) (f : list Qc -> nat -> nat) :
  foldl (cast_votes clf_predict X)
        (map (fun x => map (f x) (seq 0 n)) X) cps =
  map (fun x => map (fun a => f x a + votes clf_predict cps x a) (seq 0 n))
      X.
Proof.
  revert f. induction cps as [|cp cps IH]; intros f.
  - simpl. apply map_ext. intros x. apply map_ext. intros a.
    unfold votes. simpl. lia.
  - simpl. rewrite cast_votes_map, IH.
    apply map_ext. intros x. apply map_ext. intros a.
    rewrite (votes_cons cp cps). lia.
Qed.

End PredictProperties.

Section ArgmaxProperties.

Import PairwiseClassifier.

Lemma argmax_from_spec (row pre : list nat) (best_pos best : nat) :
  pre !! best_pos = Some best ->
  (forall b v, pre !! b = Some v -> v <= best) ->
  (forall b v, b < best_pos -> pre !! b = Some v -> v < best) ->
  first_maximum (pre ++ row) (argmax_from row (length pre) best_pos best).
Proof.
  revert pre best_pos best.
  induction row as [|x row IH]; intros pre best_pos best Hbest Hle Hlt.
  - simpl. rewrite app_nil_r. by exists best.
  - simpl. rewrite (cons_middle x pre row), app_assoc.
    replace (S (length pre)) with (length (pre ++ [x]))
      by (rewrite length_app; simpl; lia).
    destruct (best <? x)%nat eqn:Hcmp.
    + apply Nat.ltb_lt in Hcmp. apply IH.
      * by rewrite lookup_app_r, Nat.sub_diag.
      * intros b v Hb. apply lookup_app_Some in Hb as [Hb|[_ Hb]].
        -- apply Hle in Hb. lia.
        -- apply list_lookup_singleton_Some in Hb as [_ ->]. lia.
      * intros b v Hb Hv. rewrite lookup_app_l in Hv by done.
        apply Hle in Hv. lia.
    + apply Nat.ltb_ge in Hcmp. apply IH.
      * rewrite lookup_app_l; [done|]. by eapply lookup_lt_Some.
      * intros b v Hb. apply lookup_app_Some in Hb as [Hb|[_ Hb]].
        -- by apply Hle in Hb.
        -- by apply list_lookup_singleton_Some in Hb as [_ ->].
      * intros b v Hb Hv. apply lookup_lt_Some in Hbest.
        rewrite lookup_app_l in Hv by lia. by eapply Hlt.
Qed.

(** [argmax] of a row with at least one column is its first maximum. *)
Lemma argmax_first_maximum (row : list nat) :
  row <> [] -> first_maximum row (argmax row).
Proof.
  destruct row as [|x row]; [done|]. intros _. simpl.
  apply (argmax_from_spec row [x] 0 x); [done|..].
  - intros b v Hb. by apply list_lookup_singleton_Some in Hb as [_ ->].
  - intros b v Hb. lia.
Qed.

Lemma first_maximum_lt (row : list nat) a :
  first_maximum row a -> a < length row.
Proof. intros (m & Hm & _). by eapply lookup_lt_Some. Qed.

End ArgmaxProperties.

Section PredictTheorems.

Import PairwiseClassifier.

Context {Clf : Type}.
Variable clf_predict : Clf -> list Qc -> bool.

Lemma replicate_length_map {A B : Type} (l : list A) (c : B) :
  replicate (length l) c = map (fun _ => c) l.
Proof. induction l as [|x l IH]; simpl; [done|]. by rewrite IH. Qed.

Lemma replicate_map_seq {B : Type} (n : nat) (c : B) :
  replicate n c = map (fun _ => c) (seq 0 n).
Proof.
  rewrite <-(replicate_length_map (seq 0 n) c). by rewrite length_seq.
Qed.

(** The vote matrix [predict] builds when the classifiers suffice: row by
    row, the votes of every algorithm. *)
Lemma predict_scores_ok (self : t Clf) (scenario : ASlibScenario) :
  let n_algos := length (algorithms scenario) in
  let cps := zip (self_classifiers self) (canonical_pairs n_algos) in
  length (canonical_pairs n_algos) <= length (self_classifiers self) ->
  predict_scores clf_predict self scenario =
  ((map (fun x => map (votes clf_predict cps x) (seq 0 n_algos))
        (feature_values scenario),
    length (canonical_pairs n_algos)), None).
Proof.
  intros n_algos cps Hlen. unfold predict_scores. fold n_algos.
  rewrite (for_each_nested _ (predict_pair clf_predict self _)).
  rewrite predict_pairs_ok by done. rewrite drop_0. fold cps.
  rewrite replicate_length_map, replicate_map_seq.
  rewrite (cast_votes_foldl clf_predict _ _ _ (fun _ _ => 0)).
  done.
Qed.

Lemma picks_ok (scenario : ASlibScenario) (cutoff : Qc)
    (algo_indx : list nat) :
  Forall (fun i => i < length (algorithms scenario)) algo_indx ->
  exists l, picks scenario cutoff algo_indx = Ok l /\
    length l = length algo_indx /\
    forall k i, algo_indx !! k = Some i ->
      exists a, algorithms scenario !! i = Some a /\
                l !! k = Some (a, (cutoff + 1)%Qc).
Proof.
  induction 1 as [|i rest Hi _ (l & Hl & Hlen & Hlk)].
  - exists []. by split_and!.
  - destruct (lookup_lt_is_Some_2 _ _ Hi) as [a Ha].
    exists ((a, (cutoff + 1)%Qc) :: l). simpl. rewrite Ha, Hl.
    split_and!; [done|by rewrite Hlen|].
    intros [|k] i' Hk; simpl in *; [|by apply Hlk].
    injection Hk as <-. by exists a.
Qed.

Lemma schedule_items_keys {A : Type} (l : list A) (index : list string) :
  length l = length index ->
  (zip_with (fun s inst => (inst, [s])) l index).*1 = index.
Proof.
  revert index. induction l as [|s l IH]; intros [|inst index] Hlen;
    simpl in *; try done. f_equal. apply IH. lia.
Qed.

End PredictTheorems.

(** ** Theorems on [PairwiseClassifier.fit] *)

Section FitTheorems.

Import PairwiseClassifier.

Context {Clf : Type}.
Variable clf_fit :
  list (list Qc) -> list bool -> Configuration -> list Qc -> Clf.
Variable clf_predict : Clf -> list Qc -> bool.

Lemma fit_new_classifier (self : t Clf) scenario config k p :
  complete_performance scenario ->
  self_classifier_class self = Some RandomForest ->
  canonical_pairs (length (algorithms scenario)) !! k = Some p ->
  self_classifiers (fit clf_fit self scenario config).1
    !! (length (self_classifiers self) + k) =
  Some (pair_classifier clf_fit scenario config p).
Proof.
  intros Hc Hcls Hk. rewrite fit_ok by done. simpl.
  rewrite lookup_app_r by lia.
  replace (length (self_classifiers self) + k - length (self_classifiers self))
    with k by lia.
  by rewrite list_lookup_fmap, Hk.
Qed.

(** C1, as the code has it: in [fit], the classifier of the [k]-th pair
    [(i, j)] is fitted on the label vector [y] that holds, for every
    instance, 1 exactly when the performance value of algorithm [i] is
    strictly smaller than that of algorithm [j], and 0 otherwise; the
    maximize flag is not consulted.  When the flag is unset this is
    "1 exactly when [i] is strictly better than [j]". *)
Theorem fit_labels_strictly_smaller (self : t Clf) scenario config k i j :
  complete_performance scenario ->
  self_classifier_class self = Some RandomForest ->
  canonical_pairs (length (algorithms scenario)) !! k = Some (i, j) ->
  let y := labels (column scenario i) (column scenario j) in
  (exists w,
      self_classifiers (fit clf_fit self scenario config).1
        !! (length (self_classifiers self) + k) =
      Some (clf_fit (feature_values scenario) y config w)) /\
  forall n a b,
    column scenario i !! n = Some a ->
    column scenario j !! n = Some b ->
    y !! n = Some (bool_decide (a < b)%Qc) /\
    (maximize scenario = false ->
     (y !! n = Some true <-> strictly_better (maximize scenario) a b)).
Proof.
  intros Hc Hcls Hk y. split.
  - eexists. by rewrite (fit_new_classifier _ _ _ _ _ Hc Hcls Hk).
  - intros n a b Ha Hb. unfold y. rewrite (labels_lookup _ _ _ _ _ Ha Hb).
    split; [done|]. intros ->. simpl. split.
    + intros [= H]. by apply bool_decide_eq_true in H.
    + intros H. f_equal. by apply bool_decide_eq_true.
Qed.

(** C3: [fit] appends exactly [A*(A-1)/2] classifiers, one for each pair
    [(i, j)] with [i < j] and in the canonical order of the pairs; the
    classifier of a pair is fitted with the weights
    [|performance(i) - performance(j)|]; and [predict] walks the pairs in
    the same order, taking for its [k]-th pair the [k]-th of these
    classifiers. *)
Theorem fit_one_classifier_per_pair (self : t Clf) scenario config :
  let n_algos := length (algorithms scenario) in
  let pairs := canonical_pairs n_algos in
  2 <= n_algos ->
  complete_performance scenario ->
  self_classifier_class self = Some RandomForest ->
  exists new,
    fit clf_fit self scenario config =
      (Build (self_classifiers self ++ new) (Some (algorithms scenario))
             (Some RandomForest), None) /\
    length new = n_algos * (n_algos - 1) / 2 /\
    length pairs = length new /\
    NoDup pairs /\
    StronglySorted pair_before pairs /\
    (forall i j, (i, j) ∈ pairs <-> i < j < n_algos) /\
    (forall k i j, pairs !! k = Some (i, j) ->
       exists w,
         new !! k =
           Some (clf_fit (feature_values scenario)
                   (labels (column scenario i) (column scenario j))
                   config w) /\
         forall n a b,
           column scenario i !! n = Some a ->
           column scenario j !! n = Some b ->
           w !! n = Some (Qcabs (a - b))) /\
    (self_classifiers self = [] ->
     forall scenario',
       length (algorithms scenario') = n_algos ->
       predict_scores clf_predict (fit clf_fit self scenario config).1
                      scenario' =
       ((foldl (cast_votes clf_predict (feature_values scenario'))
               (replicate (length (feature_values scenario'))
                          (replicate n_algos 0))
               (zip new pairs),
         length pairs), None)).
Proof.
  intros n_algos pairs _ Hc Hcls.
  exists (map (pair_classifier clf_fit scenario config) pairs).
  split_and!.
  - by apply fit_ok.
  - rewrite length_map. apply canonical_pairs_length.
  - by rewrite length_map.
  - apply canonical_pairs_NoDup.
  - apply canonical_pairs_sorted.
  - intros i j. apply elem_of_canonical_pairs.
  - intros k i j Hk. eexists. split.
    + by rewrite list_lookup_fmap, Hk.
    + intros n a b Ha Hb. by apply weights_lookup.
  - intros Hnil scenario' Hlen. rewrite fit_ok by done. rewrite Hnil.
    unfold predict_scores. rewrite Hlen. fold n_algos. simpl.
    rewrite (for_each_nested _ (predict_pair clf_predict _ _)).
    fold pairs. rewrite predict_pairs_ok.
    + by rewrite drop_0.
    + simpl. by rewrite length_map.
Qed.

(** C7, as the code has it: on a scenario with fewer than two algorithms
    [fit] raises nothing; it records the scenario's algorithms, fits no
    classifier and returns. *)
Theorem fit_few_algorithms_no_error (self : t Clf) scenario config :
  length (algorithms scenario) < 2 ->
  fit clf_fit self scenario config =
  (Build (self_classifiers self) (Some (algorithms scenario))
         (self_classifier_class self), None).
Proof.
  intros Hlen. unfold fit.
  rewrite (for_each_nested _ (fit_pair clf_fit scenario config)).
  by rewrite canonical_pairs_small.
Qed.

End FitTheorems.

Lemma example_complete_performance :
  complete_performance Example.two_algorithms.
Proof. repeat constructor; by eexists. Defined.

Lemma fit_labels_strictly_smaller_witness :
  complete_performance Example.two_algorithms /\
  let self := PairwiseClassifier.init (Some PairwiseClassifier.RandomForest) in
  let y := PairwiseClassifier.labels (column Example.two_algorithms 0)
                                     (column Example.two_algorithms 1) in
  (exists w,
      PairwiseClassifier.self_classifiers
        (PairwiseClassifier.fit Example.memo_fit self
                                Example.two_algorithms ∅).1 !! (0 + 0) =
      Some (Example.memo_fit (feature_values Example.two_algorithms) y ∅ w))
  /\
  forall n a b,
    column Example.two_algorithms 0 !! n = Some a ->
    column Example.two_algorithms 1 !! n = Some b ->
    y !! n = Some (bool_decide (a < b)%Qc) /\
    (maximize Example.two_algorithms = false ->
     (y !! n = Some true <->
      strictly_better (maximize Example.two_algorithms) a b)).
Proof.
  split; [exact example_complete_performance|].
  exact (fit_labels_strictly_smaller Example.memo_fit
           (PairwiseClassifier.init (Some PairwiseClassifier.RandomForest))
           Example.two_algorithms ∅ 0 0 1
           example_complete_performance eq_refl eq_refl).
Defined.

Lemma fit_labels_ignore_maximize :
  ~ labels_follow_convention Example.maximizing
      (PairwiseClassifier.self_classifiers
         (PairwiseClassifier.fit Example.record_fit
            (PairwiseClassifier.init (Some PairwiseClassifier.RandomForest))
            Example.maximizing ∅).1).
Proof.
  intros H.
  destruct (H 0 0 1 _ 0 (Qc_of_Z 1) (Qc_of_Z 100)
              eq_refl eq_refl eq_refl eq_refl) as [[H1 _] _].
  specialize (H1 eq_refl). vm_compute in H1. discriminate.
Qed.

Lemma fit_one_classifier_per_pair_witness :
  2 <= length (algorithms Example.two_algorithms) /\
  exists new,
    PairwiseClassifier.fit Example.memo_fit
      (PairwiseClassifier.init (Some PairwiseClassifier.RandomForest))
      Example.two_algorithms ∅ =
    (PairwiseClassifier.Build new (Some ["A1"; "A2"])
       (Some PairwiseClassifier.RandomForest), None) /\
    length new = 2 * (2 - 1) / 2.
Proof.
  split; [simpl; lia|].
  destruct (fit_one_classifier_per_pair Example.memo_fit Example.memo_predict
              (PairwiseClassifier.init (Some PairwiseClassifier.RandomForest))
              Example.two_algorithms ∅
              ltac:(simpl; lia) example_complete_performance eq_refl)
    as (new & Hfit & Hlen & _).
  exists new. split; [exact Hfit | exact Hlen].
Defined.

Lemma fit_few_algorithms_no_error_witness :
  length (algorithms Example.single_algorithm) < 2 /\
  PairwiseClassifier.fit Example.memo_fit
    (PairwiseClassifier.init (Some PairwiseClassifier.RandomForest))
    Example.single_algorithm ∅ =
  (PairwiseClassifier.Build [] (Some ["A1"])
     (Some PairwiseClassifier.RandomForest), None).
Proof.
  split; [simpl; lia|].
  apply (fit_few_algorithms_no_error Example.memo_fit
           (PairwiseClassifier.init (Some PairwiseClassifier.RandomForest))
           Example.single_algorithm ∅).
  simpl; lia.
Defined.

Lemma fit_accepts_single_algorithm :
  ~ fit_rejects_few_algorithms Example.memo_fit
      (PairwiseClassifier.init (Some PairwiseClassifier.RandomForest))
      Example.single_algorithm ∅.
Proof.
  intros H. destruct H as [e He]; [simpl; lia|]. vm_compute in He.
  discriminate.
Qed.

(** ** Theorems on [PairwiseClassifier.predict] *)

Section SelectorPredictTheorems.

Import PairwiseClassifier.

Context {Clf : Type}.
Variable clf_predict : Clf -> list Qc -> bool.

(** What [predict] returns when the classifiers suffice and there is an
    algorithm to choose. *)
Lemma predict_ok (self : t Clf) (scenario : ASlibScenario) :
  let n_algos := length (algorithms scenario) in
  let cps := zip (self_classifiers self) (canonical_pairs n_algos) in
  1 <= n_algos ->
  length (canonical_pairs n_algos) <= length (self_classifiers self) ->
  exists l,
    predict clf_predict self scenario =
      Ok (dict (zip_with (fun s inst => (inst, [s])) l
                         (feature_index scenario))) /\
    length l = length (feature_data scenario) /\
    forall k inst x, feature_data scenario !! k = Some (inst, x) ->
      exists a name,
        l !! k = Some (name, (predict_cutoff scenario + 1)%Qc) /\
        algorithms scenario !! a = Some name /\
        first_maximum (map (votes clf_predict cps x) (seq 0 n_algos)) a.
Proof.
  intros n_algos cps Hn Hlen. unfold predict.
  rewrite predict_scores_ok by done. fold n_algos cps.
  destruct (n_algos =? 0)%nat eqn:Hz; [apply Nat.eqb_eq in Hz; lia|].
  set (scores := map (fun x => map (votes clf_predict cps x) (seq 0 n_algos))
                     (feature_values scenario)).
  assert (Hrow : forall k row, scores !! k = Some row ->
            exists x, feature_values scenario !! k = Some x /\
                      row = map (votes clf_predict cps x) (seq 0 n_algos)).
  { intros k row Hk. unfold scores in Hk. rewrite list_lookup_fmap in Hk.
    destruct (feature_values scenario !! k) as [x|]; [|done].
    injection Hk as <-. by exists x. }
  assert (Hmax : forall k row, scores !! k = Some row ->
            first_maximum row (argmax row)).
  { intros k row Hk. apply argmax_first_maximum.
    destruct (Hrow k row Hk) as (x & _ & ->).
    destruct n_algos; [lia|done]. }
  destruct (picks_ok scenario (predict_cutoff scenario) (map argmax scores))
    as (l & Hl & Hll & Hlk).
  { apply Forall_forall. intros i Hi. apply list_elem_of_fmap in Hi.
    destruct Hi as (row & -> & Hrowin).
    apply list_elem_of_lookup in Hrowin as [k Hk].
    pose proof (first_maximum_lt _ _ (Hmax k row Hk)) as Hlt.
    destruct (Hrow k row Hk) as (x & _ & Hr). subst row.
    by rewrite length_map, length_seq in Hlt. }
  exists l. rewrite Hl. split_and!; [done|..].
  - rewrite Hll, length_map. unfold scores, feature_values.
    by rewrite !length_map.
  - intros k inst x Hk.
    assert (Hx : feature_values scenario !! k = Some x).
    { unfold feature_values. by rewrite list_lookup_fmap, Hk. }
    assert (Hs : scores !! k =
                 Some (map (votes clf_predict cps x) (seq 0 n_algos))).
    { unfold scores. by rewrite list_lookup_fmap, Hx. }
    destruct (Hlk k (argmax (map (votes clf_predict cps x) (seq 0 n_algos))))
      as (name & Hname & Hlname).
    { by rewrite list_lookup_fmap, Hs. }
    eexists _, name. split_and!; [done..|]. by eapply Hmax.
Qed.

Lemma predict_cutoff_defined (scenario : ASlibScenario) (c : Qc) :
  algorithm_cutoff_time scenario = Some c -> c <> 0%Qc ->
  predict_cutoff scenario = c.
Proof.
  intros Hc Hnz. unfold predict_cutoff. rewrite Hc. simpl.
  by rewrite bool_decide_eq_false_2.
Qed.

Lemma predict_cutoff_sentinel (scenario : ASlibScenario) :
  algorithm_cutoff_time scenario = None \/
  algorithm_cutoff_time scenario = Some 0%Qc ->
  predict_cutoff scenario = Qc_of_Z (2 ^ 31).
Proof. unfold predict_cutoff. by intros [-> | ->]. Qed.

(** C2: [predict] returns a mapping that gives every instance the
    one-element schedule [[(algorithm, budget)]]: the algorithm is the one
    with the most votes on the instance, the lowest in the algorithm order
    among those with the most, and the budget is the scenario's cutoff
    plus one, or [2**31] plus one when the scenario has no cutoff.  (The
    selector holds a classifier for every pair, the scenario has an
    algorithm, and its instances are distinct.) *)
Theorem predict_most_votes_lowest_index (self : t Clf)
    (scenario : ASlibScenario) :
  let n_algos := length (algorithms scenario) in
  let cps := zip (self_classifiers self) (canonical_pairs n_algos) in
  let budget := (predict_cutoff scenario + 1)%Qc in
  1 <= n_algos ->
  n_algos * (n_algos - 1) / 2 <= length (self_classifiers self) ->
  NoDup (feature_index scenario) ->
  exists schedules,
    predict clf_predict self scenario = Ok schedules /\
    (forall inst, inst ∉ feature_index scenario ->
                  schedules !! inst = None) /\
    (forall inst x, (inst, x) ∈ feature_data scenario ->
       exists a selected_algorithm,
         schedules !! inst = Some [(selected_algorithm, budget)] /\
         algorithms scenario !! a = Some selected_algorithm /\
         first_maximum (map (votes clf_predict cps x) (seq 0 n_algos)) a) /\
    (forall c, algorithm_cutoff_time scenario = Some c -> c <> 0%Qc ->
               budget = (c + 1)%Qc) /\
    (algorithm_cutoff_time scenario = None \/
     algorithm_cutoff_time scenario = Some 0%Qc ->
     budget = (Qc_of_Z (2 ^ 31) + 1)%Qc).
Proof.
  intros n_algos cps budget Hn Hlen Hnd.
  rewrite <-canonical_pairs_length in Hlen.
  destruct (predict_ok self scenario Hn Hlen) as (l & Hp & Hll & Hlk).
  assert (Hkeys : (zip_with (fun s inst => (inst, [s])) l
                            (feature_index scenario)).*1 =
                  feature_index scenario).
  { apply schedule_items_keys. unfold feature_index.
    by rewrite length_map. }
  eexists. split_and!; [exact Hp|..].
  - intros inst Hinst. apply dict_lookup_None. by rewrite Hkeys.
  - intros inst x Hin. apply list_elem_of_lookup in Hin as [k Hk].
    destruct (Hlk k inst x Hk) as (a & name & Hl & Ha & Hmax).
    exists a, name. split_and!; [|done..].
    apply dict_lookup_NoDup; [by rewrite Hkeys|].
    apply list_elem_of_lookup. exists k. rewrite lookup_zip_with, Hl. simpl.
    unfold feature_index. by rewrite list_lookup_fmap, Hk.
  - intros c Hc Hnz. unfold budget.
    by rewrite (predict_cutoff_defined _ _ Hc Hnz).
  - intros Hc. unfold budget. by rewrite (predict_cutoff_sentinel _ Hc).
Qed.

(** C8, as the code has it: [predict] does not read the algorithm list
    recorded by [fit], so its outcome is the same whatever that list is;
    on a scenario with an algorithm and no more pairs than fitted
    classifiers it returns a mapping, and it raises (an [IndexError]) when
    the scenario has more pairs than there are fitted classifiers. *)
Theorem predict_ignores_fit_algorithms (self : t Clf)
    (scenario : ASlibScenario) :
  let n_algos := length (algorithms scenario) in
  (forall algs,
      predict clf_predict
        (Build (self_classifiers self) algs (self_classifier_class self))
        scenario =
      predict clf_predict self scenario) /\
  (1 <= n_algos ->
   n_algos * (n_algos - 1) / 2 <= length (self_classifiers self) ->
   exists schedules, predict clf_predict self scenario = Ok schedules) /\
  (length (self_classifiers self) < n_algos * (n_algos - 1) / 2 ->
   predict clf_predict self scenario = Raise IndexError).
Proof.
  intros n_algos. split_and!.
  - done.
  - intros Hn Hlen. rewrite <-canonical_pairs_length in Hlen.
    destruct (predict_ok self scenario Hn Hlen) as (l & Hp & _).
    eexists. exact Hp.
  - intros Hlen. rewrite <-canonical_pairs_length in Hlen.
    unfold predict, predict_scores. fold n_algos.
    rewrite (for_each_nested _ (predict_pair clf_predict self _)).
    pose proof (predict_pairs_short clf_predict self
                  (feature_values scenario) (canonical_pairs n_algos)
                  (replicate (length (feature_values scenario))
                             (replicate n_algos 0)) 0
                  ltac:(simpl; lia) ltac:(lia)) as H.
    destruct (for_each _ _ _) as [[scores k] [e|]]; simpl in H; [|done].
    by injection H as ->.
Qed.

End SelectorPredictTheorems.

Lemma example_instances_distinct :
  NoDup (feature_index Example.two_algorithms).
Proof. apply (bool_decide_unpack _). vm_compute. exact I. Defined.

Lemma predict_most_votes_lowest_index_witness :
  1 <= length (algorithms Example.two_algorithms) /\
  NoDup (feature_index Example.two_algorithms) /\
  exists schedules,
    PairwiseClassifier.predict Example.memo_predict Example.fitted
                               Example.two_algorithms = Ok schedules /\
    exists a selected_algorithm,
      schedules !! "inst3" =
        Some [(selected_algorithm, (Qc_of_Z 200 + 1)%Qc)] /\
      algorithms Example.two_algorithms !! a = Some selected_algorithm.
Proof.
  split; [simpl; lia|]. split; [exact example_instances_distinct|].
  destruct (predict_most_votes_lowest_index Example.memo_predict
              Example.fitted Example.two_algorithms
              ltac:(simpl; lia) ltac:(vm_compute; lia)
              example_instances_distinct)
    as (schedules & Hp & _ & Hin & Hb & _).
  exists schedules. split; [exact Hp|].
  destruct (Hin "inst3" [Qc_of_Z 3]) as (a & name & Hs & Ha & _).
  { apply list_elem_of_In. simpl. tauto. }
  exists a, name. split; [|exact Ha].
  rewrite Hs. rewrite (Hb (Qc_of_Z 200) eq_refl); [reflexivity|].
  intros H. discriminate H.
Defined.

Lemma predict_ignores_fit_algorithms_witness :
  1 <= length (algorithms Example.swapped) /\
  PairwiseClassifier.self_algorithms Example.fitted <>
    Some (algorithms Example.swapped) /\
  exists schedules,
    PairwiseClassifier.predict Example.memo_predict Example.fitted
                               Example.swapped = Ok schedules.
Proof.
  split; [simpl; lia|]. split; [intros H; discriminate H|].
  destruct (predict_ignores_fit_algorithms Example.memo_predict
              Example.fitted Example.swapped) as (_ & Hok & _).
  apply Hok; [simpl; lia | vm_compute; lia].
Defined.

Lemma predict_accepts_swapped_algorithms :
  ~ predict_rejects_other_algorithms Example.memo_predict Example.fitted
      Example.swapped.
Proof.
  intros H. destruct H as [e He].
  - intros Heq. discriminate Heq.
  - vm_compute in He. discriminate He.
Qed.

(** ** Theorems on [AutoFolio] *)

Section OrchestratorTheorems.

Import AutoFolio.

Context {Clf : Type}.
Variable clf_fit :
  list (list Qc) -> list bool -> Configuration -> list Qc -> Clf.
Variable clf_predict : Clf -> list Qc -> bool.
Context {Stage : Type}.
Variable stage_fit_transform :
  StageClass -> ASlibScenario -> Configuration ->
  result (ASlibScenario * Stage).
Variable stage_transform : Stage -> ASlibScenario -> result ASlibScenario.
Context {Aspeed : Type}.
Variable aspeed_fit : ASlibScenario -> Configuration -> result Aspeed.
Variable aspeed_predict :
  Aspeed -> ASlibScenario -> result (gmap string Schedule).
Context {Stats : Type}.
Variable Stats_new : option Qc -> Stats.
Variable Stats_merge : Stats -> Stats -> result Stats.
Variable Stats_show : Stats -> result Qc.
Variable validate_runtime :
  gmap string Schedule -> ASlibScenario -> result Stats.
Variable validate_quality :
  gmap string Schedule -> ASlibScenario -> result Stats.
Variable get_split :
  ASlibScenario -> nat -> result (ASlibScenario * ASlibScenario).
Variable py_int : string -> option Z.
Variable py_float : string -> option Qc.
Variable check_configuration :
  gmap string Hyperparameter -> gmap string value -> option exn.
Variable self_cs : gmap string Hyperparameter.
Variable self_overwrite_args : option (list string).

(** *** Combining the schedules *)

(** C5: with an empty pre-solving schedule the selector's schedule is
    returned as it is; so [predict] without a pre-solver returns what the
    selector's [predict] returns on the transformed scenario. *)
Theorem combine_empty_pre_solving :
  (forall pred_schedules : gmap string Schedule,
      combine_schedules ∅ pred_schedules = pred_schedules) /\
  (forall scenario config feature_pre_pipeline selector,
      predict clf_predict stage_transform aspeed_predict scenario config
              feature_pre_pipeline None selector =
      scenario ← transform_all stage_transform feature_pre_pipeline scenario;
      PairwiseClassifier.predict clf_predict selector scenario).
Proof.
  assert (Hc : forall pred_schedules : gmap string Schedule,
             combine_schedules ∅ pred_schedules = pred_schedules).
  { intros S. unfold combine_schedules. by rewrite bool_decide_eq_true_2. }
  split; [done|]. intros scenario config pipeline selector. unfold predict.
  destruct (transform_all stage_transform pipeline scenario) as [sc|e];
    simpl; [|done].
  destruct (PairwiseClassifier.predict clf_predict selector sc) as [S|e];
    simpl; [|done].
  unfold mret, result_ret. by rewrite Hc.
Qed.

Lemma combine_lookup (pre_solving_schedule pred_schedules
                        : gmap string Schedule) inst :
  pre_solving_schedule <> ∅ ->
  combine_schedules pre_solving_schedule pred_schedules !! inst =
  (fun schedule => default [] (pre_solving_schedule !! inst) ++ schedule)
    <$> pred_schedules !! inst.
Proof.
  intros Hne. unfold combine_schedules.
  rewrite bool_decide_eq_false_2 by done.
  set (f := fun '(inst, schedule) =>
              (inst, default [] (pre_solving_schedule !! inst) ++ schedule)).
  assert (Hkeys : (map f (map_to_list pred_schedules)).*1 =
                  (map_to_list pred_schedules).*1).
  { rewrite <-list_fmap_compose. apply list_fmap_ext.
    by intros _ [k v] _. }
  destruct (pred_schedules !! inst) as [schedule|] eqn:Hs; simpl.
  - apply dict_lookup_NoDup.
    + rewrite Hkeys. apply NoDup_fst_map_to_list.
    + apply list_elem_of_fmap. exists (inst, schedule). split; [done|].
      by apply elem_of_map_to_list.
  - apply dict_lookup_None. rewrite Hkeys. intros Hin.
    apply list_elem_of_fmap in Hin as ([k v] & -> & Hin).
    apply elem_of_map_to_list in Hin. simpl in Hs. congruence.
Qed.

(** C6: when the pre-solver's schedule is not empty, [predict] gives every
    instance of the selector's schedule the pre-solving entries of that
    instance, in their order, followed by the selector's entries; an
    instance the pre-solving schedule does not have gets the selector's
    entries alone, and no error arises. *)
Theorem predict_prepends_pre_solving scenario config feature_pre_pipeline
    aspeed (selector : PairwiseClassifier.t Clf) scenario'
    (pre_solving_schedule pred_schedules : gmap string Schedule) :
  transform_all stage_transform feature_pre_pipeline scenario =
    Ok scenario' ->
  aspeed_predict aspeed scenario' = Ok pre_solving_schedule ->
  pre_solving_schedule <> ∅ ->
  PairwiseClassifier.predict clf_predict selector scenario' =
    Ok pred_schedules ->
  exists schedules,
    predict clf_predict stage_transform aspeed_predict scenario config
            feature_pre_pipeline (Some aspeed) selector = Ok schedules /\
    forall inst schedule,
      pred_schedules !! inst = Some schedule ->
      schedules !! inst =
        Some (default [] (pre_solving_schedule !! inst) ++ schedule) /\
      (forall pre, pre_solving_schedule !! inst = Some pre ->
         schedules !! inst = Some (pre ++ schedule)) /\
      (pre_solving_schedule !! inst = None ->
         schedules !! inst = Some schedule).
Proof.
  intros Htrans Hpre Hne Hsel.
  exists (combine_schedules pre_solving_schedule pred_schedules). split.
  - unfold predict. rewrite Htrans. simpl. rewrite Hpre. simpl.
    by rewrite Hsel.
  - intros inst schedule Hs. rewrite combine_lookup, Hs by done. simpl.
    split_and!; [done|..]; by intros; simplify_option_eq.
Qed.

(** *** [fit_selector] *)

(** C10: when the configuration's "selector" is not "PairwiseClassifier",
    [fit_selector] raises [UnboundLocalError]. *)
Theorem fit_selector_unbound (scenario : ASlibScenario)
    (config : Configuration) :
  config !! "selector" <> Some (VStr "PairwiseClassifier") ->
  fit_selector clf_fit scenario config = Raise UnboundLocalError.
Proof.
  intros Hsel. unfold fit_selector. by rewrite bool_decide_eq_false_2.
Qed.

(** *** [_overwrite_configuration] *)

Abbreviation step := (overwrite_step py_int py_float self_cs).

Lemma overwrite_step_keeps param pv st :
  truthy (default VNone (st.1 !! param)) = false ->
  (step pv st).1.1 !! param = st.1 !! param.
Proof.
  destruct pv as [p v], st as [d log]. simpl. intros Hf.
  destruct (truthy (default VNone (d !! p))) eqn:Ht; [|done].
  assert (p <> param) by (intros ->; congruence).
  repeat case_match; simpl; by rewrite ?lookup_insert_ne.
Qed.

Lemma overwrite_loop_keeps param l st :
  truthy (default VNone (st.1 !! param)) = false ->
  (for_each l step st).1.1 !! param = st.1 !! param.
Proof.
  revert st. induction l as [|pv l IH]; intros st Hf; simpl; [done|].
  pose proof (overwrite_step_keeps param pv st Hf) as Hstep.
  destruct (step pv st) as [s' [e|]]; simpl in *; [done|].
  rewrite IH; [done|]. by rewrite Hstep.
Qed.

Lemma overwrite_step_warns param pv st s' :
  truthy (default VNone (st.1 !! param)) = false ->
  step pv st = (s', None) ->
  (forall r, r ∈ st.2 -> r ∈ s'.2) /\
  (pv.1 = param -> WarnUnknownParameter param pv.2 ∈ s'.2).
Proof.
  destruct pv as [p v], st as [d log]. simpl. intros Hf Hs.
  destruct (truthy (default VNone (d !! p))) eqn:Ht.
  - assert (p <> param) by (intros ->; congruence).
    split; [|done]. repeat case_match; by simplify_eq.
  - injection Hs as <-. simpl. split.
    + intros r Hr. apply elem_of_app. by left.
    + intros ->. apply elem_of_app. right. by left.
Qed.

Lemma overwrite_loop_warns param l st s' :
  truthy (default VNone (st.1 !! param)) = false ->
  for_each l step st = (s', None) ->
  (forall r, r ∈ st.2 -> r ∈ s'.2) /\
  (forall v, (param, v) ∈ l -> WarnUnknownParameter param v ∈ s'.2).
Proof.
  revert st. induction l as [|pv l IH]; intros st Hf Hl; simpl in Hl.
  - injection Hl as <-. split; [done|]. intros v Hv. by inversion Hv.
  - pose proof (overwrite_step_keeps param pv st Hf) as Hkeep.
    pose proof (overwrite_step_warns param pv st) as Hwarn.
    destruct (step pv st) as [s1 [e|]]; [done|]. simpl in Hkeep.
    destruct (Hwarn s1 Hf eq_refl) as [Hsub Hpv].
    destruct (IH s1 ltac:(by rewrite Hkeep) Hl) as [Hsub' Hrest].
    split; [by auto|]. intros v Hv.
    apply elem_of_cons in Hv as [Heq|Hv]; [|by auto].
    subst pv. apply Hsub'. by apply Hpv.
Qed.

(** C9: a parameter whose current value in the configuration dictionary is
    falsy (or that the dictionary does not have) keeps that value through
    the loop of [_overwrite_configuration], however the loop ends and
    whatever the configuration space says about the parameter; when the
    function returns a configuration, the parameter is unchanged in it and
    each override given for it was logged as an unknown parameter. *)
Theorem overwrite_keeps_falsy_parameters (config : Configuration)
    (overwrite_args : list string) (param : string) :
  truthy (default VNone (config !! param)) = false ->
  (overwrite_loop py_int py_float self_cs config overwrite_args).1.1
    !! param = config !! param /\
  forall config',
    (_overwrite_configuration py_int py_float check_configuration self_cs
       config overwrite_args).2 = Ok config' ->
    config' !! param = config !! param /\
    forall v, (param, v) ∈ pairwise overwrite_args ->
      WarnUnknownParameter param v ∈
        (_overwrite_configuration py_int py_float check_configuration
           self_cs config overwrite_args).1.
Proof.
  intros Hf. unfold _overwrite_configuration, overwrite_loop.
  pose proof (overwrite_loop_keeps param (pairwise overwrite_args)
                (config, []) Hf) as Hkeep.
  pose proof (overwrite_loop_warns param (pairwise overwrite_args)
                (config, [])) as Hwarn.
  split; [done|]. intros config'.
  destruct (for_each _ _ _) as [[d log] [e|]]; simpl in *; [done|].
  destruct (check_configuration self_cs d); simpl; [done|].
  intros [= ->]. split; [done|].
  by destruct (Hwarn _ Hf eq_refl) as [_ Hw].
Qed.

(** *** [run_cv] *)

Abbreviation fold :=
  (cv_fold clf_fit clf_predict stage_fit_transform stage_transform
     aspeed_fit aspeed_predict Stats_merge validate_runtime
     validate_quality get_split py_int py_float check_configuration
     self_cs self_overwrite_args).

Lemma range_split (lo k hi : nat) :
  lo <= k < hi -> range lo hi = range lo k ++ k :: range (k + 1) hi.
Proof.
  intros Hk. unfold range.
  replace (hi - lo) with ((k - lo) + S (hi - (k + 1))) by lia.
  rewrite seq_app. simpl. do 3 f_equal; lia.
Qed.

Lemma range_snoc (lo k : nat) :
  lo <= k -> range lo (k + 1) = range lo k ++ [k].
Proof.
  intros Hk. rewrite (range_split lo k (k + 1)) by lia.
  do 2 f_equal. unfold range. by replace (k + 1 - (k + 1)) with 0 by lia.
Qed.

(** Every iteration logs its number first, whatever happens next. *)
Lemma cv_fold_log config scenario i cv_stat log :
  (fold config scenario i (cv_stat, log)).1.2 = log ++ [InfoCVIteration i].
Proof. unfold cv_fold. by case_match. Qed.

Lemma cv_loop_log config scenario l cv_stat log cv_stat' log' :
  for_each l (fold config scenario) (cv_stat, log) =
    ((cv_stat', log'), None) ->
  log' = log ++ map InfoCVIteration l.
Proof.
  revert cv_stat log. induction l as [|i l IH]; intros cv_stat log Hl.
  - simpl in Hl. injection Hl as _ <-. by rewrite app_nil_r.
  - cbn [for_each] in Hl.
    pose proof (cv_fold_log config scenario i cv_stat log) as Hlog.
    destruct (fold config scenario i (cv_stat, log)) as [[s1 l1] [e|]];
      simpl in Hl, Hlog; [done|]. subst l1.
    rewrite (IH _ _ Hl). by rewrite <-app_assoc.
Qed.

Lemma Qc_fallback_sign (c : Qc) :
  (c * Qc_of_Z (-10) * Qc_of_Z (-1))%Qc = (c * Qc_of_Z 10)%Qc.
Proof.
  rewrite <-Qcmult_assoc. f_equal; try (apply Qc_is_canon; reflexivity).
Qed.

(** C4, as the code has it: when an iteration of the loop of [run_cv]
    raises a [ValueError] (the iterations before it having passed), the
    iterations after it are not run and [run_cv] returns ten times the
    cutoff, whether the scenario maximizes or not: with the maximize flag
    set, the fallback [cutoff * -10] is negated again before it is
    returned. *)
Theorem run_cv_value_error_fallback config scenario folds k cutoff
    cv_stat log :
  algorithm_cutoff_time scenario = Some cutoff ->
  1 <= k <= folds ->
  for_each (range 1 k) (fold config scenario)
           (cv_stat_new Stats_new scenario, []) =
    ((cv_stat, log), None) ->
  (fold config scenario k (cv_stat, log)).2 = Some ValueError ->
  run_cv clf_fit clf_predict stage_fit_transform stage_transform
         aspeed_fit aspeed_predict Stats_new Stats_merge Stats_show
         validate_runtime validate_quality get_split py_int py_float
         check_configuration self_cs self_overwrite_args
         config scenario folds =
  (map InfoCVIteration (range 1 (k + 1)), Ok (cutoff * Qc_of_Z 10)%Qc).
Proof.
  intros Hc Hk Hbefore Hraise. unfold run_cv, cv_try.
  rewrite (range_split 1 k (folds + 1)) by lia.
  rewrite for_each_app, Hbefore. cbn [for_each].
  pose proof (cv_fold_log config scenario k cv_stat log) as Hlog.
  destruct (fold config scenario k (cv_stat, log)) as [[s1 l1] e].
  simpl in Hlog, Hraise. subst e l1.
  apply cv_loop_log in Hbefore. simpl in Hbefore. subst log.
  rewrite Hc, range_snoc, map_app by lia. simpl.
  destruct (maximize scenario); simpl; [|done].
  by rewrite Qc_fallback_sign.
Qed.

End OrchestratorTheorems.

Lemma predict_prepends_pre_solving_witness :
  let pre : gmap string Schedule :=
    dict (map (fun inst => (inst, [("A2", Qc_of_Z 10)]))
              (feature_index Example.two_algorithms)) in
  pre <> ∅ /\
  exists schedules pred_schedules,
    PairwiseClassifier.predict Example.memo_predict Example.fitted
      Example.two_algorithms = Ok pred_schedules /\
    AutoFolio.predict Example.memo_predict Example.stage_transform
      Cases.static_predict Example.two_algorithms Example.pairwise_config
      [tt; tt; tt; tt] (Some [("A2", Qc_of_Z 10)]) Example.fitted =
      Ok schedules /\
    forall schedule,
      pred_schedules !! "inst1" = Some schedule ->
      schedules !! "inst1" = Some ([("A2", Qc_of_Z 10)] ++ schedule).
Proof.
  intros pre.
  assert (Hne : pre <> ∅).
  { intros H. apply (f_equal (fun m => m !! "inst1")) in H.
    vm_compute in H. discriminate H. }
  split; [exact Hne|].
  destruct (PairwiseClassifier.predict Example.memo_predict Example.fitted
              Example.two_algorithms) as [pred_schedules|e] eqn:Hsel.
  - destruct (predict_prepends_pre_solving Example.memo_predict
                Example.stage_transform Cases.static_predict
                Example.two_algorithms Example.pairwise_config
                [tt; tt; tt; tt] [("A2", Qc_of_Z 10)] Example.fitted
                Example.two_algorithms pre pred_schedules
                eq_refl eq_refl Hne Hsel) as (schedules & Hp & Hall).
    exists schedules, pred_schedules. split; [reflexivity|].
    split; [exact Hp|]. intros schedule Hs.
    destruct (Hall "inst1" schedule Hs) as (_ & H & _).
    apply H. reflexivity.
  - vm_compute in Hsel. discriminate Hsel.
Defined.

Lemma fit_selector_unbound_witness :
  (∅ : Configuration) !! "selector" <> Some (VStr "PairwiseClassifier") /\
  AutoFolio.fit_selector Example.memo_fit Example.two_algorithms ∅ =
    Raise UnboundLocalError.
Proof.
  assert (H : (∅ : Configuration) !! "selector" <>
              Some (VStr "PairwiseClassifier")).
  { rewrite lookup_empty. intros Heq. discriminate Heq. }
  split; [exact H|].
  exact (fit_selector_unbound Example.memo_fit Example.two_algorithms ∅ H).
Defined.

Lemma overwrite_keeps_falsy_parameters_witness :
  truthy (default VNone (Example.pairwise_config !! "pca")) = false /\
  (AutoFolio.overwrite_loop Example.py_int Example.py_float Example.space
     Example.pairwise_config ["pca"; "True"]).1.1 !! "pca" =
  Example.pairwise_config !! "pca".
Proof.
  split; [reflexivity|].
  destruct (overwrite_keeps_falsy_parameters Example.py_int Example.py_float
              Example.check_configuration Example.space
              Example.pairwise_config ["pca"; "True"] "pca" eq_refl)
    as [H _].
  exact H.
Defined.

Lemma run_cv_value_error_fallback_witness :
  algorithm_cutoff_time Example.unknown_type = Some (Qc_of_Z 200) /\
  (Example.cv_fold Example.pairwise_config Example.unknown_type 1
     (AutoFolio.cv_stat_new Example.Stats_new Example.unknown_type, [])).2 =
    Some ValueError /\
  Example.run_cv Example.pairwise_config Example.unknown_type 3 =
    ([AutoFolio.InfoCVIteration 1], Ok (Qc_of_Z 200 * Qc_of_Z 10)%Qc).
Proof.
  split; [reflexivity|]. split; [vm_compute; reflexivity|].
  apply (run_cv_value_error_fallback Example.memo_fit Example.memo_predict
           Example.stage_fit_transform Example.stage_transform
           Example.aspeed_fit Example.aspeed_predict Example.Stats_new
           Example.Stats_merge Example.Stats_show Example.validate
           Example.validate Example.get_split Example.py_int
           Example.py_float Example.check_configuration Example.space None
           Example.pairwise_config Example.unknown_type 3 1 (Qc_of_Z 200)
           (AutoFolio.cv_stat_new Example.Stats_new Example.unknown_type) []).
  - reflexivity.
  - lia.
  - reflexivity.
  - vm_compute. reflexivity.
Defined.

Lemma run_cv_fallback_not_negated :
  (Example.cv_fold Example.pairwise_config Example.unknown_type 1
     (AutoFolio.cv_stat_new Example.Stats_new Example.unknown_type, [])).2 =
    Some ValueError /\
  ~ cv_fallback_value Example.unknown_type
      (Example.run_cv Example.pairwise_config Example.unknown_type 3).2.
Proof.
  split; [vm_compute; reflexivity|].
  intros (cutoff & Hc & Hr). injection Hc as <-.
  apply (f_equal (fun r => match r with
                           | Ok q => Qnum (Qcanon.this q)
                           | Raise _ => 0%Z
                           end)) in Hr.
  vm_compute in Hr. discriminate Hr.
Qed.

(** * Further properties of the code *)

(** ** [PairwiseClassifier.fit]: outcomes *)

Section FitOutcomes.

Import PairwiseClassifier.

Context {Clf : Type}.
Variable clf_fit :
  list (list Qc) -> list bool -> Configuration -> list Qc -> Clf.
Variable clf_predict : Clf -> list Qc -> bool.

Lemma performance_column_cases scenario i :
  i < length (algorithms scenario) ->
  performance_column scenario i = Ok (column scenario i) \/
  performance_column scenario i = Raise KeyError.
Proof.
  intros Hi. unfold performance_column, column.
  destruct (lookup_lt_is_Some_2 _ _ Hi) as [name ->].
  destruct (performance_data scenario !! name); simpl; auto.
Qed.

(** The three ways one iteration of [fit] can end. *)
Lemma fit_pair_outcome scenario config i j (self : t Clf) :
  i < length (algorithms scenario) -> j < length (algorithms scenario) ->
  (fit_pair clf_fit scenario config i j self =
     (Build (self_classifiers self ++
               [pair_classifier clf_fit scenario config (i, j)])
            (self_algorithms self) (self_classifier_class self), None) /\
   self_classifier_class self = Some RandomForest /\
   performance_column scenario i = Ok (column scenario i) /\
   performance_column scenario j = Ok (column scenario j)) \/
  (fit_pair clf_fit scenario config i j self = (self, Some KeyError) /\
   (performance_column scenario i = Raise KeyError \/
    performance_column scenario j = Raise KeyError)) \/
  (fit_pair clf_fit scenario config i j self = (self, Some TypeError) /\
   self_classifier_class self = None /\
   performance_column scenario i = Ok (column scenario i) /\
   performance_column scenario j = Ok (column scenario j)).
Proof.
  intros Hi Hj. unfold fit_pair.
  destruct (performance_column_cases scenario i Hi) as [Hci|Hci];
    rewrite Hci; [|by auto].
  destruct (performance_column_cases scenario j Hj) as [Hcj|Hcj];
    rewrite Hcj; [|by auto].
  destruct (self_classifier_class self) as [[]|] eqn:Hcls.
  - by left.
  - by right; right.
Qed.

(** How the loop of [fit] ends on a list of pairs: the pairs [done] before
    the first failure are fitted and appended, in order. *)
Lemma fit_pairs_outcome scenario config (l : list (nat * nat))
    (self : t Clf) :
  (forall i j, (i, j) ∈ l ->
     i < length (algorithms scenario) /\ j < length (algorithms scenario)) ->
  exists done rest,
    l = done ++ rest /\
    (for_each l (fun p => fit_pair clf_fit scenario config p.1 p.2) self).1 =
      Build (self_classifiers self ++
               map (pair_classifier clf_fit scenario config) done)
            (self_algorithms self) (self_classifier_class self) /\
    (forall i j, (i, j) ∈ done ->
       performance_column scenario i = Ok (column scenario i) /\
       performance_column scenario j = Ok (column scenario j)) /\
    (done <> [] -> self_classifier_class self = Some RandomForest) /\
    (((for_each l (fun p => fit_pair clf_fit scenario config p.1 p.2)
                self).2 = None /\ rest = []) \/
     (exists i j rest',
         rest = (i, j) :: rest' /\
         (for_each l (fun p => fit_pair clf_fit scenario config p.1 p.2)
                   self).2 = Some KeyError /\
         (performance_column scenario i = Raise KeyError \/
          performance_column scenario j = Raise KeyError)) \/
     (exists p rest',
         rest = p :: rest' /\
         (for_each l (fun p => fit_pair clf_fit scenario config p.1 p.2)
                   self).2 = Some TypeError /\
         self_classifier_class self = None)).
Proof.
  revert self. induction l as [|[i j] l IH]; intros self Hl.
  - exists [], []. simpl. rewrite app_nil_r. split_and!; try done.
    + by destruct self.
    + intros i j Hin. by inversion Hin.
    + by left.
  - destruct (Hl i j ltac:(left)) as [Hi Hj]. cbn [for_each].
    destruct (fit_pair_outcome scenario config i j self Hi Hj)
      as [(Hfp & Hcls & Hci & Hcj)|[(Hfp & Hmiss)|(Hfp & Hcls & _)]];
      cbn [fst snd] in Hfp |- *; rewrite Hfp.
    + destruct (IH (Build (self_classifiers self ++
                             [pair_classifier clf_fit scenario config (i, j)])
                          (self_algorithms self)
                          (self_classifier_class self)))
        as (done & rest & -> & Hst & Hcols & Hne & Hend).
      { intros i' j' Hin. apply Hl. by right. }
      exists ((i, j) :: done), rest. simpl in Hst. split_and!; try done.
      * rewrite Hst. simpl. by rewrite <-app_assoc.
      * intros i' j' Hin. apply elem_of_cons in Hin as [[= -> ->]|Hin];
          [done|by apply Hcols].
    + exists [], ((i, j) :: l). simpl. rewrite app_nil_r.
      split_and!; try done.
      * by destruct self.
      * intros i' j' Hin. by inversion Hin.
      * right. left. by exists i, j, l.
    + exists [], ((i, j) :: l). simpl. rewrite app_nil_r.
      split_and!; try done.
      * by destruct self.
      * intros i' j' Hin. by inversion Hin.
      * right. right. by exists (i, j), l.
Qed.

Lemma canonical_pairs_bounds (n i j : nat) :
  (i, j) ∈ canonical_pairs n -> i < n /\ j < n.
Proof. intros H. apply elem_of_canonical_pairs in H. lia. Qed.

Lemma canonical_pairs_nonempty (n : nat) :
  2 <= n -> (0, 1) ∈ canonical_pairs n.
Proof. intros Hn. apply elem_of_canonical_pairs. lia. Qed.


(** X2: when an algorithm of the scenario has no column of performance
    values, [fit] with a classifier class and at least two algorithms ends
    in a [KeyError]. *)
Theorem fit_missing_column (self : t Clf) scenario config m name :
  2 <= length (algorithms scenario) ->
  self_classifier_class self = Some RandomForest ->
  algorithms scenario !! m = Some name ->
  performance_data scenario !! name = None ->
  (fit clf_fit self scenario config).2 = Some KeyError.
Proof.
  intros Hn Hcls Hm Hname. unfold fit.
  rewrite (for_each_nested _ (fit_pair clf_fit scenario config)).
  set (n_algos := length (algorithms scenario)) in *.
  destruct (fit_pairs_outcome scenario config (canonical_pairs n_algos)
              (Build (self_classifiers self) (Some (algorithms scenario))
                     (self_classifier_class self))
              (canonical_pairs_bounds n_algos))
    as (done & rest & Hl & _ & Hcols & _ & Hend).
  destruct Hend as [[_ ->]|[(i & j & rest' & _ & -> & _)|
                            (p & rest' & _ & _ & Hnone)]].
  - exfalso. rewrite app_nil_r in Hl. subst done.
    assert (Hmlt : m < n_algos) by (by eapply lookup_lt_Some).
    assert (Hbad : performance_column scenario m = Raise KeyError).
    { unfold performance_column. by rewrite Hm, Hname. }
    destruct (decide (m = 0)) as [->|Hm0].
    + destruct (Hcols 0 1 (canonical_pairs_nonempty _ Hn)) as [H0 _].
      congruence.
    + destruct (Hcols 0 m) as [_ H1]; [|congruence].
      apply elem_of_canonical_pairs. lia.
  - done.
  - simpl in Hnone. congruence.
Qed.

End FitOutcomes.

Lemma fit_missing_column_witness :
  2 <= length (algorithms Cases.missing_column) /\
  performance_data Cases.missing_column !! "A3" = None /\
  (PairwiseClassifier.fit Example.memo_fit
     (PairwiseClassifier.init (Some PairwiseClassifier.RandomForest))
     Cases.missing_column ∅).2 = Some KeyError.
Proof.
  split; [simpl; lia|]. split; [reflexivity|].
  apply (fit_missing_column Example.memo_fit
           (PairwiseClassifier.init (Some PairwiseClassifier.RandomForest))
           Cases.missing_column ∅ 1 "A3").
  - simpl; lia.
  - reflexivity.
  - reflexivity.
  - reflexivity.
Defined.

Lemma fit_few_algorithms_no_error_aux {Clf : Type}
    (clf_fit : list (list Qc) -> list bool -> Configuration -> list Qc -> Clf)
    (self : PairwiseClassifier.t Clf) scenario config :
  length (algorithms scenario) < 2 ->
  PairwiseClassifier.fit clf_fit self scenario config =
  (PairwiseClassifier.Build (PairwiseClassifier.self_classifiers self)
     (Some (algorithms scenario))
     (PairwiseClassifier.self_classifier_class self), None).
Proof.
  intros Hlen. unfold PairwiseClassifier.fit.
  rewrite (for_each_nested _ (PairwiseClassifier.fit_pair clf_fit scenario
                                                          config)).
  by rewrite canonical_pairs_small.
Qed.

Section FitTwice.

Import PairwiseClassifier.

Context {Clf : Type}.
Variable clf_fit :
  list (list Qc) -> list bool -> Configuration -> list Qc -> Clf.
Variable clf_predict : Clf -> list Qc -> bool.

Lemma zip_app_short {A B : Type} (l1 l2 : list A) (k : list B) :
  length k <= length l1 -> zip (l1 ++ l2) k = zip l1 k.
Proof.
  revert k. induction l1 as [|x l1 IH]; intros [|y k] Hlen; simpl in *;
    try done; try lia.
  - by destruct l2.
  - f_equal. apply IH. lia.
Qed.

(** [predict] reads no more classifiers than the scenario has pairs. *)
Lemma predict_extra_classifiers (self : t Clf) (extra : list Clf)
    (scenario : ASlibScenario) :
  length (canonical_pairs (length (algorithms scenario)))
    <= length (self_classifiers self) ->
  predict clf_predict
    (Build (self_classifiers self ++ extra) (self_algorithms self)
           (self_classifier_class self)) scenario =
  predict clf_predict self scenario.
Proof.
  intros Hlen. unfold predict, predict_scores.
  rewrite !(for_each_nested _ (predict_pair clf_predict _ _)).
  rewrite !predict_pairs_ok; simpl; rewrite ?length_app; try lia.
  rewrite !drop_0. by rewrite zip_app_short.
Qed.

(** X3: [fit] does not empty the classifier list.  A second [fit] on the
    same selector appends its classifiers behind those of the first, and
    [predict], on a scenario with as many algorithms, still answers with
    the classifiers of the first [fit]: the second [fit] changes no
    prediction. *)
Theorem fit_twice_keeps_first (self : t Clf) scenario1 config1 scenario2
    config2 :
  let n_algos := length (algorithms scenario1) in
  let first := (fit clf_fit self scenario1 config1).1 in
  let second := (fit clf_fit first scenario2 config2).1 in
  self_classifiers self = [] ->
  self_classifier_class self = Some RandomForest ->
  complete_performance scenario1 ->
  complete_performance scenario2 ->
  length (algorithms scenario2) = n_algos ->
  self_classifiers second =
    self_classifiers first ++
    map (pair_classifier clf_fit scenario2 config2) (canonical_pairs n_algos)
  /\
  length (self_classifiers second) = 2 * (n_algos * (n_algos - 1) / 2) /\
  forall scenario,
    length (algorithms scenario) = n_algos ->
    predict clf_predict second scenario = predict clf_predict first scenario.
Proof.
  intros n_algos first second Hnil Hcls Hc1 Hc2 Hlen.
  assert (Hfirst : first =
            Build (map (pair_classifier clf_fit scenario1 config1)
                       (canonical_pairs n_algos))
                  (Some (algorithms scenario1)) (Some RandomForest)).
  { unfold first. rewrite fit_ok by done. by rewrite Hnil. }
  assert (Hsecond : second =
            Build (self_classifiers first ++
                     map (pair_classifier clf_fit scenario2 config2)
                         (canonical_pairs n_algos))
                  (Some (algorithms scenario2)) (Some RandomForest)).
  { unfold second. rewrite fit_ok; [by rewrite Hlen|done|by rewrite Hfirst]. }
  split_and!.
  - by rewrite Hsecond.
  - rewrite Hsecond, Hfirst. cbn [self_classifiers].
    rewrite length_app, !length_map, canonical_pairs_length. lia.
  - intros scenario Hn. rewrite Hsecond.
    rewrite <-(predict_extra_classifiers first
                 (map (pair_classifier clf_fit scenario2 config2)
                      (canonical_pairs n_algos)) scenario).
    + by rewrite Hfirst.
    + rewrite Hn, Hfirst. cbn [self_classifiers]. by rewrite length_map.
Qed.

(** ** [AutoFolio.fit_selector]: outcomes *)

(** X4: with "selector" set to "PairwiseClassifier", "classifier" set to
    "RandomForest" and a performance column for every algorithm,
    [fit_selector] returns a selector that holds one classifier for each
    pair, in the canonical order, and the scenario's algorithms. *)
Theorem fit_selector_fits_all_pairs scenario (config : Configuration) :
  config !! "selector" = Some (VStr "PairwiseClassifier") ->
  config !! "classifier" = Some (VStr "RandomForest") ->
  complete_performance scenario ->
  AutoFolio.fit_selector clf_fit scenario config =
  Ok (Build (map (pair_classifier clf_fit scenario config)
                 (canonical_pairs (length (algorithms scenario))))
            (Some (algorithms scenario)) (Some RandomForest)).
Proof.
  intros Hsel Hclf Hc. unfold AutoFolio.fit_selector.
  rewrite !bool_decide_eq_true_2 by done. by rewrite fit_ok.
Qed.

(** X5: with "selector" set to "PairwiseClassifier" and a "classifier" that
    is not "RandomForest", the classifier class is [None]: on a scenario
    with two or more algorithms (and their performance columns)
    [fit_selector] raises [TypeError], while with fewer than two algorithms
    it returns a selector without any classifier. *)
Theorem fit_selector_no_classifier_class scenario (config : Configuration) :
  config !! "selector" = Some (VStr "PairwiseClassifier") ->
  config !! "classifier" <> Some (VStr "RandomForest") ->
  (2 <= length (algorithms scenario) -> complete_performance scenario ->
   AutoFolio.fit_selector clf_fit scenario config = Raise TypeError) /\
  (length (algorithms scenario) < 2 ->
   AutoFolio.fit_selector clf_fit scenario config =
   Ok (Build [] (Some (algorithms scenario)) None)).
Proof.
  intros Hsel Hclf. unfold AutoFolio.fit_selector.
  rewrite bool_decide_eq_true_2, bool_decide_eq_false_2 by done. split.
  - intros Hn Hc. unfold fit, init.
    rewrite (for_each_nested _ (fit_pair clf_fit scenario config)).
    cbn [self_classifiers self_classifier_class].
    set (n_algos := length (algorithms scenario)) in *.
    destruct (fit_pairs_outcome clf_fit scenario config
                (canonical_pairs n_algos)
                (Build [] (Some (algorithms scenario)) None)
                (canonical_pairs_bounds n_algos))
      as (done & rest & Hl & _ & _ & Hne & Hend).
    destruct (for_each _ _ _) as [s e]. cbn [snd] in Hend.
    destruct Hend as [[_ ->]|[(i & j & rest' & -> & _ & Hmiss)|
                              (p & rest' & _ & -> & _)]].
    + rewrite app_nil_r in Hl. subst done.
      pose proof (canonical_pairs_nonempty n_algos Hn) as Hin.
      destruct (canonical_pairs n_algos); [by inversion Hin|].
      by specialize (Hne ltac:(done)).
    + assert (Hin : (i, j) ∈ canonical_pairs n_algos).
      { rewrite Hl. apply elem_of_app. right. by left. }
      apply canonical_pairs_bounds in Hin as [Hi Hj].
      rewrite !(performance_column_complete scenario) in Hmiss by done.
      by destruct Hmiss.
    + done.
  - intros Hn. by rewrite fit_few_algorithms_no_error_aux.
Qed.

End FitTwice.

Lemma swapped_complete_performance : complete_performance Example.swapped.
Proof. repeat constructor; by eexists. Defined.

Lemma fit_twice_keeps_first_witness :
  let first :=
    (PairwiseClassifier.fit Example.memo_fit
       (PairwiseClassifier.init (Some PairwiseClassifier.RandomForest))
       Example.two_algorithms ∅).1 in
  let second :=
    (PairwiseClassifier.fit Example.memo_fit first Example.swapped ∅).1 in
  complete_performance Example.swapped /\
  length (PairwiseClassifier.self_classifiers second) = 2 * (2 * (2 - 1) / 2)
  /\
  PairwiseClassifier.predict Example.memo_predict second
    Example.two_algorithms =
  PairwiseClassifier.predict Example.memo_predict first
    Example.two_algorithms.
Proof.
  intros first second. split; [exact swapped_complete_performance|].
  destruct (fit_twice_keeps_first Example.memo_fit Example.memo_predict
              (PairwiseClassifier.init (Some PairwiseClassifier.RandomForest))
              Example.two_algorithms ∅ Example.swapped ∅
              eq_refl eq_refl example_complete_performance
              swapped_complete_performance eq_refl)
    as (_ & Hlen & Hpred).
  split; [exact Hlen|]. apply Hpred. reflexivity.
Defined.

Lemma fit_selector_fits_all_pairs_witness :
  Example.pairwise_config !! "selector" = Some (VStr "PairwiseClassifier") /\
  Example.pairwise_config !! "classifier" = Some (VStr "RandomForest") /\
  exists selector,
    AutoFolio.fit_selector Example.memo_fit Example.two_algorithms
                           Example.pairwise_config = Ok selector /\
    length (PairwiseClassifier.self_classifiers selector) = 1.
Proof.
  split; [reflexivity|]. split; [reflexivity|].
  eexists. split.
  - apply (fit_selector_fits_all_pairs Example.memo_fit
             Example.two_algorithms Example.pairwise_config
             eq_refl eq_refl example_complete_performance).
  - reflexivity.
Defined.

Lemma fit_selector_no_classifier_class_witness :
  Cases.other_classifier_config !! "selector" =
    Some (VStr "PairwiseClassifier") /\
  Cases.other_classifier_config !! "classifier" <>
    Some (VStr "RandomForest") /\
  AutoFolio.fit_selector Example.memo_fit Example.two_algorithms
                         Cases.other_classifier_config = Raise TypeError /\
  AutoFolio.fit_selector Example.memo_fit Example.single_algorithm
                         Cases.other_classifier_config =
    Ok (PairwiseClassifier.Build [] (Some ["A1"]) None).
Proof.
  assert (Hne : Cases.other_classifier_config !! "classifier" <>
                Some (VStr "RandomForest")).
  { intros H. vm_compute in H. discriminate H. }
  split; [reflexivity|]. split; [exact Hne|].
  destruct (fit_selector_no_classifier_class Example.memo_fit
              Example.two_algorithms Cases.other_classifier_config
              eq_refl Hne) as [Hbig _].
  destruct (fit_selector_no_classifier_class Example.memo_fit
              Example.single_algorithm Cases.other_classifier_config
              eq_refl Hne) as [_ Hsmall].
  split.
  - apply Hbig; [simpl; lia | exact example_complete_performance].
  - apply Hsmall. simpl; lia.
Defined.

(** ** [PairwiseClassifier.predict]: the vote matrix *)

Section Counting.

Context {A : Type}.

Lemma filter_length_le (P Q : A -> Prop) `{!forall x, Decision (P x)}
    `{!forall x, Decision (Q x)} (l : list A) :
  (forall x, x ∈ l -> P x -> Q x) ->
  length (filter P l) <= length (filter Q l).
Proof.
  induction l as [|x l IH]; intros Himp; [done|].
  rewrite !filter_cons.
  assert (IH' : length (filter P l) <= length (filter Q l)).
  { apply IH. intros y Hy. apply Himp. by right. }
  destruct (decide (P x)) as [HP|HP], (decide (Q x)) as [HQ|HQ]; simpl;
    try lia.
  exfalso. apply HQ, Himp; [by left|done].
Qed.

Lemma filter_length_lt (P Q : A -> Prop) `{!forall x, Decision (P x)}
    `{!forall x, Decision (Q x)} (l : list A) (y : A) :
  (forall x, x ∈ l -> P x -> Q x) ->
  y ∈ l -> Q y -> ~ P y ->
  length (filter P l) < length (filter Q l).
Proof.
  induction l as [|x l IH]; intros Himp Hy HQy HPy; [by inversion Hy|].
  rewrite !filter_cons.
  assert (Hle : length (filter P l) <= length (filter Q l)).
  { apply filter_length_le. intros z Hz. apply Himp. by right. }
  apply elem_of_cons in Hy as [<-|Hy].
  - rewrite decide_False, decide_True by done. simpl. lia.
  - assert (IH' : length (filter P l) < length (filter Q l)).
    { apply IH; try done. intros z Hz. apply Himp. by right. }
    destruct (decide (P x)) as [HP|HP], (decide (Q x)) as [HQ|HQ]; simpl;
      try lia.
    exfalso. apply HQ, Himp; [by left|done].
Qed.

Lemma filter_length_eq (P Q : A -> Prop) `{!forall x, Decision (P x)}
    `{!forall x, Decision (Q x)} (l : list A) :
  (forall x, x ∈ l -> P x <-> Q x) ->
  length (filter P l) = length (filter Q l).
Proof.
  intros Himp. apply Nat.le_antisymm; apply filter_length_le;
    intros x Hx; by apply Himp.
Qed.

Lemma filter_length_snd {B : Type} (P : B -> Prop)
    `{!forall x, Decision (P x)} (l : list (A * B)) :
  length (filter (fun ab => P ab.2) l) = length (filter P l.*2).
Proof.
  induction l as [|[a b] l IH]; [done|].
  rewrite fmap_cons, !filter_cons. simpl.
  destruct (decide (P b)); simpl; by rewrite IH.
Qed.

End Counting.

(** Each algorithm takes part in [n - 1] of the pairs. *)
Lemma canonical_pairs_takes_part (n a : nat) :
  a < n ->
  length (filter (takes_part a) (canonical_pairs n)) = n - 1.
Proof.
  intros Ha.
  set (T := map (fun i => (i, a)) (seq 0 a) ++
            map (fun j => (a, j)) (seq (S a) (n - S a))).
  assert (Hperm : filter (takes_part a) (canonical_pairs n) ≡ₚ T).
  { apply NoDup_Permutation.
    - apply NoDup_filter, canonical_pairs_NoDup.
    - unfold T. apply NoDup_app. split_and!.
      + apply NoDup_fmap_2; [by intros ?? [=]|apply NoDup_seq].
      + intros [i j] H1 H2.
        apply list_elem_of_fmap in H1 as (i' & [= -> ->] & Hi').
        apply list_elem_of_fmap in H2 as (j' & [= -> _] & _).
        apply elem_of_seq in Hi'. lia.
      + apply NoDup_fmap_2; [by intros ?? [=]|apply NoDup_seq].
    - intros [i j]. rewrite list_elem_of_filter, elem_of_canonical_pairs.
      unfold T, takes_part. rewrite elem_of_app, !list_elem_of_fmap. simpl.
      split.
      + intros [[->| ->] Hij].
        * right. exists j. split; [done|]. apply elem_of_seq. lia.
        * left. exists i. split; [done|]. apply elem_of_seq. lia.
      + intros [(i' & [= -> ->] & Hi')|(j' & [= -> ->] & Hj')].
        * apply elem_of_seq in Hi'. lia.
        * apply elem_of_seq in Hj'. lia. }
  rewrite Hperm. unfold T.
  rewrite length_app, !length_map, !length_seq. lia.
Qed.

Section VoteMatrix.

Import PairwiseClassifier.

Context {Clf : Type}.
Variable clf_predict : Clf -> list Qc -> bool.

Lemma winner_takes_part (clf : Clf) x p :
  takes_part (winner clf_predict clf x p) p.
Proof. unfold winner, takes_part. destruct (clf_predict clf x); auto. Qed.

Lemma sum_list_indicator (w s n : nat) :
  sum_list (map (fun a => if decide (w = a) then 1 else 0) (seq s n)) =
  if decide (s <= w < s + n) then 1 else 0.
Proof.
  revert s. induction n as [|n IH]; intros s; simpl.
  - rewrite decide_False; [done|lia].
  - rewrite IH. repeat case_decide; lia.
Qed.

Lemma sum_list_map_add {B : Type} (f g : B -> nat) (l : list B) :
  sum_list (map (fun a => f a + g a) l) =
  sum_list (map f l) + sum_list (map g l).
Proof. induction l as [|x l IH]; simpl; [done|]. rewrite IH. lia. Qed.

(** Every classifier gives one vote per instance. *)
Lemma votes_sum (cps : list (Clf * (nat * nat))) (x : list Qc) (n : nat) :
  (forall cp, cp ∈ cps -> cp.2.1 < n /\ cp.2.2 < n) ->
  sum_list (map (votes clf_predict cps x) (seq 0 n)) = length cps.
Proof.
  induction cps as [|cp cps IH]; intros Hb.
  - simpl. induction (seq 0 n) as [|a l IHl]; simpl; [done|].
    by rewrite IHl.
  - rewrite (map_ext _ (fun a => votes clf_predict [cp] x a +
                                 votes clf_predict cps x a))
      by (intros a; apply votes_cons).
    rewrite sum_list_map_add, IH by (intros cp' Hcp'; apply Hb; by right).
    rewrite (map_ext _ (fun a => if decide (winner clf_predict cp.1 x cp.2 = a)
                                 then 1 else 0))
      by (intros a; apply votes_single).
    rewrite sum_list_indicator. simpl.
    destruct (Hb cp ltac:(left)) as [H1 H2].
    rewrite decide_True; [done|].
    unfold winner. destruct (clf_predict cp.1 x); lia.
Qed.

Lemma elem_of_zip_pairs (clfs : list Clf) (n : nat) cp :
  cp ∈ zip clfs (canonical_pairs n) -> cp.2.1 < cp.2.2 < n.
Proof.
  intros Hin. destruct cp as [clf [i j]].
  apply elem_of_zip_r in Hin. by apply elem_of_canonical_pairs.
Qed.

(** X6: the vote matrix [predict] builds has one row per instance and one
    column per algorithm, and every row sums to the number of pairs
    [A*(A-1)/2]. *)
Theorem predict_scores_rows (self : t Clf) (scenario : ASlibScenario) :
  let n_algos := length (algorithms scenario) in
  n_algos * (n_algos - 1) / 2 <= length (self_classifiers self) ->
  exists scores,
    predict_scores clf_predict self scenario =
      ((scores, n_algos * (n_algos - 1) / 2), None) /\
    length scores = length (feature_data scenario) /\
    forall row, row ∈ scores ->
      length row = n_algos /\
      sum_list row = n_algos * (n_algos - 1) / 2.
Proof.
  intros n_algos Hlen. rewrite <-canonical_pairs_length in *.
  eexists. split_and!.
  - by apply predict_scores_ok.
  - unfold feature_values. by rewrite !length_map.
  - intros row Hrow. apply list_elem_of_fmap in Hrow as (x & -> & _).
    rewrite length_map, length_seq. split; [done|].
    rewrite votes_sum.
    + rewrite length_zip. fold n_algos. lia.
    + intros cp Hcp. apply elem_of_zip_pairs in Hcp. lia.
Qed.

End VoteMatrix.

Lemma predict_scores_rows_witness :
  2 * (2 - 1) / 2 <= length (PairwiseClassifier.self_classifiers
                               Example.fitted) /\
  exists scores,
    PairwiseClassifier.predict_scores Example.memo_predict Example.fitted
      Example.two_algorithms = ((scores, 2 * (2 - 1) / 2), None) /\
    length scores = 3.
Proof.
  split; [vm_compute; lia|].
  destruct (predict_scores_rows Example.memo_predict Example.fitted
              Example.two_algorithms ltac:(vm_compute; lia))
    as (scores & Hs & Hl & _).
  exists scores. split; [exact Hs | exact Hl].
Defined.

(** ** [PairwiseClassifier.predict]: who is selected *)

Section Selection.

Import PairwiseClassifier.

Context {Clf : Type}.
Variable clf_predict : Clf -> list Qc -> bool.

(** The schedule [predict] gives an instance. *)
Lemma predict_lookup (self : t Clf) (scenario : ASlibScenario) :
  let n_algos := length (algorithms scenario) in
  let cps := zip (self_classifiers self) (canonical_pairs n_algos) in
  1 <= n_algos ->
  length (canonical_pairs n_algos) <= length (self_classifiers self) ->
  NoDup (feature_index scenario) ->
  exists schedules,
    predict clf_predict self scenario = Ok schedules /\
    forall inst x, (inst, x) ∈ feature_data scenario ->
      exists a name,
        schedules !! inst = Some [(name, (predict_cutoff scenario + 1)%Qc)] /\
        algorithms scenario !! a = Some name /\
        first_maximum (map (votes clf_predict cps x) (seq 0 n_algos)) a.
Proof.
  intros n_algos cps Hn Hlen Hnd.
  destruct (predict_ok clf_predict self scenario Hn Hlen)
    as (l & Hp & Hll & Hlk).
  eexists. split; [exact Hp|].
  intros inst x Hin. apply list_elem_of_lookup in Hin as [k Hk].
  destruct (Hlk k inst x Hk) as (a & name & Hl & Ha & Hmax).
  exists a, name. split_and!; [|done..].
  assert (Hkeys : (zip_with (fun s inst => (inst, [s])) l
                            (feature_index scenario)).*1 =
                  feature_index scenario).
  { apply schedule_items_keys. unfold feature_index. by rewrite length_map. }
  apply dict_lookup_NoDup; [by rewrite Hkeys|].
  apply list_elem_of_lookup. exists k. rewrite lookup_zip_with, Hl. simpl.
  unfold feature_index. by rewrite list_lookup_fmap, Hk.
Qed.

Lemma votes_lookup (cps : list (Clf * (nat * nat))) x (n a : nat) :
  a < n ->
  map (votes clf_predict cps x) (seq 0 n) !! a =
  Some (votes clf_predict cps x a).
Proof.
  intros Ha. by rewrite list_lookup_fmap, lookup_seq_lt.
Qed.

(** An algorithm that wins every comparison it takes part in has more votes
    than any other, so it is the first maximum of the row. *)
Lemma condorcet_first_maximum (clfs : list Clf) (n : nat) x a a' :
  let cps := zip clfs (canonical_pairs n) in
  length (canonical_pairs n) <= length clfs ->
  a < n ->
  (forall cp, cp ∈ cps -> takes_part a cp.2 ->
              winner clf_predict cp.1 x cp.2 = a) ->
  first_maximum (map (votes clf_predict cps x) (seq 0 n)) a' ->
  a' = a.
Proof.
  intros cps Hlen Ha Hwin Hmax.
  assert (Hcount : forall b, b < n ->
            length (filter (fun cp : Clf * (nat * nat) => takes_part b cp.2)
                           cps) = n - 1).
  { intros b Hb. rewrite (filter_length_snd (takes_part b)).
    unfold cps. rewrite snd_zip by done.
    by apply canonical_pairs_takes_part. }
  assert (Hva : votes clf_predict cps x a = n - 1).
  { rewrite <-(Hcount a Ha). unfold votes. apply filter_length_eq.
    intros cp Hcp. split; [|by apply Hwin].
    intros <-. apply winner_takes_part. }
  assert (Hvb : forall b, b < n -> b <> a ->
            votes clf_predict cps x b < n - 1).
  { intros b Hb Hne. rewrite <-(Hcount b Hb). unfold votes.
    assert (Hpair : (Nat.min a b, Nat.max a b) ∈ canonical_pairs n).
    { apply elem_of_canonical_pairs. lia. }
    apply list_elem_of_lookup in Hpair as [k Hk].
    destruct (lookup_lt_is_Some_2 clfs k) as [clf Hclf].
    { apply lookup_lt_Some in Hk. lia. }
    apply (filter_length_lt _ _ _ (clf, (Nat.min a b, Nat.max a b))).
    - intros cp _ <-. apply winner_takes_part.
    - apply list_elem_of_lookup. exists k. unfold cps.
      by rewrite lookup_zip_with, Hclf, Hk.
    - unfold takes_part. simpl. lia.
    - rewrite Hwin; [lia| |unfold takes_part; simpl; lia].
      apply list_elem_of_lookup. exists k. unfold cps.
      by rewrite lookup_zip_with, Hclf, Hk. }
  destruct Hmax as (m & Hm & Hle & _).
  assert (Ha' : a' < n).
  { apply lookup_lt_Some in Hm. by rewrite length_map, length_seq in Hm. }
  rewrite votes_lookup in Hm by done. injection Hm as <-.
  specialize (Hle a _ (votes_lookup cps x n a Ha)).
  destruct (decide (a' = a)) as [|Hne]; [done|].
  specialize (Hvb a' Ha' Hne). lia.
Qed.

(** X7: an algorithm that every classifier it takes part in favours on an
    instance (a Condorcet winner of the pairwise predictions) is the one
    [predict] selects for that instance. *)
Theorem predict_condorcet_winner (self : t Clf) (scenario : ASlibScenario)
    inst x a name :
  let n_algos := length (algorithms scenario) in
  n_algos * (n_algos - 1) / 2 <= length (self_classifiers self) ->
  NoDup (feature_index scenario) ->
  (inst, x) ∈ feature_data scenario ->
  algorithms scenario !! a = Some name ->
  (forall k clf p,
      self_classifiers self !! k = Some clf ->
      canonical_pairs n_algos !! k = Some p ->
      takes_part a p ->
      winner clf_predict clf x p = a) ->
  exists schedules,
    predict clf_predict self scenario = Ok schedules /\
    schedules !! inst = Some [(name, (predict_cutoff scenario + 1)%Qc)].
Proof.
  intros n_algos Hlen Hnd Hin Ha Hwin.
  rewrite <-canonical_pairs_length in Hlen.
  assert (Han : a < n_algos) by (by eapply lookup_lt_Some).
  destruct (predict_lookup self scenario ltac:(fold n_algos; lia) Hlen Hnd)
    as (schedules & Hp & Hlk).
  exists schedules. split; [done|].
  destruct (Hlk inst x Hin) as (a' & name' & Hs & Ha' & Hmax).
  apply condorcet_first_maximum with (a := a) in Hmax; try done.
  - subst a'. rewrite Hs. congruence.
  - intros [clf p] Hcp Htp.
    apply list_elem_of_lookup in Hcp as [k Hk].
    apply lookup_zip_with_Some in Hk as (clf' & p' & [= <- <-] & Hc & Hpk).
    by apply (Hwin k).
Qed.

(** X8: on a scenario with a single algorithm [predict] needs no
    classifier: whatever the selector holds, every instance gets that
    algorithm, with the budget cutoff plus one. *)
Theorem predict_single_algorithm (self : t Clf) (scenario : ASlibScenario)
    name inst x :
  algorithms scenario = [name] ->
  NoDup (feature_index scenario) ->
  (inst, x) ∈ feature_data scenario ->
  exists schedules,
    predict clf_predict self scenario = Ok schedules /\
    schedules !! inst = Some [(name, (predict_cutoff scenario + 1)%Qc)].
Proof.
  intros Halg Hnd Hin.
  destruct (predict_lookup self scenario) as (schedules & Hp & Hlk);
    try done; try (rewrite Halg; simpl; lia).
  exists schedules. split; [done|].
  destruct (Hlk inst x Hin) as (a & name' & Hs & Ha & _).
  rewrite Halg in Ha. destruct a as [|a]; [|done].
  injection Ha as <-. done.
Qed.

(** X9: with two algorithms the selection is the answer of the first
    classifier: the first algorithm where it answers 1, the second where it
    answers 0. *)
Theorem predict_two_algorithms (self : t Clf) (scenario : ASlibScenario)
    name0 name1 clf rest inst x :
  algorithms scenario = [name0; name1] ->
  self_classifiers self = clf :: rest ->
  NoDup (feature_index scenario) ->
  (inst, x) ∈ feature_data scenario ->
  exists schedules,
    predict clf_predict self scenario = Ok schedules /\
    schedules !! inst =
      Some [(if clf_predict clf x then name0 else name1,
             (predict_cutoff scenario + 1)%Qc)].
Proof.
  intros Halg Hclfs Hnd Hin.
  destruct (predict_lookup self scenario) as (schedules & Hp & Hlk);
    try done; try (rewrite Halg, ?Hclfs; simpl; lia).
  exists schedules. split; [done|].
  destruct (Hlk inst x Hin) as (a & name & Hs & Ha & Hmax).
  rewrite Halg, Hclfs in Hmax. cbn [length] in Hmax.
  apply condorcet_first_maximum
    with (a := if clf_predict clf x then 0 else 1) in Hmax.
  - subst a. rewrite Hs, Halg in *.
    destruct (clf_predict clf x); simpl in Ha; by injection Ha as <-.
  - simpl; lia.
  - destruct (clf_predict clf x); lia.
  - intros cp Hcp _. change (canonical_pairs 2) with [(0, 1)] in Hcp.
    simpl in Hcp. apply elem_of_cons in Hcp as [->|Hcp].
    + unfold winner. simpl. by destruct (clf_predict clf x).
    + destruct rest; by inversion Hcp.
Qed.

End Selection.

Lemma example_inst1 :
  ("inst1", [Qc_of_Z 1]) ∈ feature_data Example.two_algorithms.
Proof. apply list_elem_of_In. simpl. tauto. Defined.

Lemma predict_condorcet_winner_witness :
  NoDup (feature_index Example.two_algorithms) /\
  ("inst1", [Qc_of_Z 1]) ∈ feature_data Example.two_algorithms /\
  exists schedules,
    PairwiseClassifier.predict Example.memo_predict Example.fitted
                               Example.two_algorithms = Ok schedules /\
    schedules !! "inst1" =
      Some [("A1",
             (PairwiseClassifier.predict_cutoff Example.two_algorithms + 1)%Qc)].
Proof.
  split; [exact example_instances_distinct|].
  split; [exact example_inst1|].
  apply (predict_condorcet_winner Example.memo_predict Example.fitted
           Example.two_algorithms "inst1" [Qc_of_Z 1] 0 "A1").
  - vm_compute. lia.
  - exact example_instances_distinct.
  - exact example_inst1.
  - reflexivity.
  - intros [|k] clf p Hc Hp _.
    + vm_compute in Hp. injection Hp as <-.
      vm_compute in Hc. injection Hc as <-.
      vm_compute. reflexivity.
    + vm_compute in Hp. discriminate Hp.
Defined.

Lemma predict_single_algorithm_witness :
  algorithms Example.single_algorithm = ["A1"] /\
  exists schedules,
    PairwiseClassifier.predict Example.memo_predict
      (PairwiseClassifier.init None) Example.single_algorithm
      = Ok schedules /\
    schedules !! "inst1" =
      Some [("A1",
             (PairwiseClassifier.predict_cutoff Example.single_algorithm
              + 1)%Qc)].
Proof.
  split; [reflexivity|].
  apply (predict_single_algorithm Example.memo_predict
           (PairwiseClassifier.init None) Example.single_algorithm
           "A1" "inst1" [Qc_of_Z 1]).
  - reflexivity.
  - exact example_instances_distinct.
  - exact example_inst1.
Defined.

Lemma predict_two_algorithms_witness :
  algorithms Example.two_algorithms = ["A1"; "A2"] /\
  exists schedules,
    PairwiseClassifier.predict Example.memo_predict Example.fitted
                               Example.two_algorithms = Ok schedules /\
    schedules !! "inst1" =
      Some [("A1",
             (PairwiseClassifier.predict_cutoff Example.two_algorithms + 1)%Qc)].
Proof.
  split; [reflexivity|].
  destruct (predict_two_algorithms Example.memo_predict Example.fitted
              Example.two_algorithms "A1" "A2"
              (pair_classifier Example.memo_fit Example.two_algorithms ∅
                               (0, 1))
              [] "inst1" [Qc_of_Z 1]
              eq_refl eq_refl example_instances_distinct example_inst1)
    as (schedules & Hp & Hs).
  exists schedules. split; [exact Hp|]. rewrite Hs. reflexivity.
Defined.

(** ** [AutoFolio._overwrite_configuration]: what it touches *)

Section OverwriteProperties.

Import AutoFolio.

Variable py_int : string -> option Z.
Variable py_float : string -> option Qc.
Variable check_configuration :
  gmap string Hyperparameter -> gmap string value -> option exn.
Variable self_cs : gmap string Hyperparameter.

(** X10: [pairwise] pairs every word of the list with the word after it: the
    pairs overlap, so a list of [n] words gives [n - 1] pairs and every
    word but the first and the last is once a value and once a
    parameter. *)
Theorem pairwise_lookup {A : Type} (l : list A) (k : nat) (x y : A) :
  (pairwise l !! k = Some (x, y) <->
   l !! k = Some x /\ l !! S k = Some y) /\
  length (pairwise l) = length l - 1.
Proof.
  unfold pairwise. split.
  - rewrite lookup_zip_with_Some. rewrite lookup_tail. split.
    + by intros (x' & y' & [= -> ->] & Hx & Hy).
    + intros [Hx Hy]. by exists x, y.
  - rewrite length_zip, length_tl. lia.
Qed.

Abbreviation over_step := (overwrite_step py_int py_float self_cs).

Lemma overwrite_step_dom pv st :
  dom (over_step pv st).1.1 = dom st.1.
Proof.
  destruct pv as [p v], st as [d log]. simpl.
  destruct (truthy (default VNone (d !! p))) eqn:Ht; [|done].
  assert (Hsome : is_Some (d !! p)).
  { destruct (d !! p); [by eexists|done]. }
  repeat case_match; simpl; try done;
    by apply dom_insert_lookup_L.
Qed.

(** X11: the loop of [_overwrite_configuration] never adds a key to the
    configuration dictionary nor removes one, however it ends; so the
    configuration it returns has the keys of the one it was given. *)
Theorem overwrite_keeps_keys (config : Configuration)
    (overwrite_args : list string) :
  dom (overwrite_loop py_int py_float self_cs config overwrite_args).1.1 =
    dom config /\
  forall config',
    (_overwrite_configuration py_int py_float check_configuration self_cs
       config overwrite_args).2 = Ok config' ->
    dom config' = dom config.
Proof.
  assert (Hloop : forall l st,
             dom (for_each l over_step st).1.1 = dom st.1).
  { induction l as [|pv l IH]; intros st; [done|]. cbn [for_each].
    pose proof (overwrite_step_dom pv st) as Hstep.
    destruct (over_step pv st) as [s' [e|]]; [done|].
    by rewrite IH. }
  unfold _overwrite_configuration, overwrite_loop.
  specialize (Hloop (pairwise overwrite_args) (config, [])).
  split; [done|]. intros config'.
  destruct (for_each _ _ _) as [[d log] [e|]]; simpl in *; [done|].
  destruct (check_configuration self_cs d); simpl; [done|].
  by intros [= <-].
Qed.

Lemma overwrite_step_other param pv st :
  pv.1 <> param ->
  (over_step pv st).1.1 !! param = st.1 !! param.
Proof.
  destruct pv as [p v], st as [d log]. simpl. intros Hne.
  repeat case_match; simpl; by rewrite ?lookup_insert_ne.
Qed.

(** X12: a parameter that is none of the words of [overwrite_args] before
    the last keeps its value through the loop of
    [_overwrite_configuration], however the loop ends. *)
Theorem overwrite_touches_named_only (config : Configuration)
    (overwrite_args : list string) (param : string) :
  param ∉ (pairwise overwrite_args).*1 ->
  (overwrite_loop py_int py_float self_cs config overwrite_args).1.1
    !! param = config !! param.
Proof.
  assert (Hloop : forall l st,
             param ∉ l.*1 ->
             (for_each l over_step st).1.1 !! param = st.1 !! param).
  { induction l as [|pv l IH]; intros st Hnot; [done|]. cbn [for_each].
    rewrite fmap_cons, not_elem_of_cons in Hnot.
    destruct Hnot as [Hne Hnot].
    pose proof (overwrite_step_other param pv st ltac:(done)) as Hstep.
    destruct (over_step pv st) as [s' [e|]]; [done|].
    rewrite IH by done. done. }
  intros Hnot. unfold overwrite_loop. by rewrite Hloop.
Qed.

End OverwriteProperties.

Lemma overwrite_touches_named_only_witness :
  ("selector" ∉ (AutoFolio.pairwise ["rf:n_estimators"; "20"]).*1) /\
  (AutoFolio.overwrite_loop Example.py_int Example.py_float Example.space
     Example.pairwise_config ["rf:n_estimators"; "20"]).1.1 !! "selector" =
  Example.pairwise_config !! "selector".
Proof.
  assert (H : "selector" ∉ (AutoFolio.pairwise ["rf:n_estimators"; "20"]).*1).
  { intros Hin. apply list_elem_of_In in Hin. simpl in Hin.
    destruct Hin as [Heq|[]]. discriminate Heq. }
  split; [exact H|].
  exact (overwrite_touches_named_only Example.py_int Example.py_float
           Example.space Example.pairwise_config
           ["rf:n_estimators"; "20"] "selector" H).
Defined.

Lemma overwrite_keeps_keys_witness :
  exists config',
    (AutoFolio._overwrite_configuration Example.py_int Example.py_float
       Example.check_configuration Example.space Example.pairwise_config
       ["rf:n_estimators"; "20"]).2 = Ok config' /\
    dom config' = dom Example.pairwise_config.
Proof.
  destruct (AutoFolio._overwrite_configuration Example.py_int
              Example.py_float Example.check_configuration Example.space
              Example.pairwise_config ["rf:n_estimators"; "20"]).2
    as [config'|e] eqn:Hr.
  - exists config'. split; [reflexivity|].
    destruct (overwrite_keeps_keys Example.py_int Example.py_float
                Example.check_configuration Example.space
                Example.pairwise_config ["rf:n_estimators"; "20"])
      as [_ H].
    apply H. exact Hr.
  - vm_compute in Hr. discriminate Hr.
Defined.

(** ** [AutoFolio.run_cv], [fit] and [predict]: how they compose *)

Section CrossValidation.

Import AutoFolio.

Context {Clf : Type}.
Variable clf_fit :
  list (list Qc) -> list bool -> Configuration -> list Qc -> Clf.
Variable clf_predict : Clf -> list Qc -> bool.
Context {Stage : Type}.
Variable stage_fit_transform :
  StageClass -> ASlibScenario -> Configuration ->
  result (ASlibScenario * Stage).
Variable stage_transform : Stage -> ASlibScenario -> result ASlibScenario.
Context {Aspeed : Type}.
Variable aspeed_fit : ASlibScenario -> Configuration -> result Aspeed.
Variable aspeed_predict :
  Aspeed -> ASlibScenario -> result (gmap string Schedule).
Context {Stats : Type}.
Variable Stats_new : option Qc -> Stats.
Variable Stats_merge : Stats -> Stats -> result Stats.
Variable Stats_show : Stats -> result Qc.
Variable validate_runtime :
  gmap string Schedule -> ASlibScenario -> result Stats.
Variable validate_quality :
  gmap string Schedule -> ASlibScenario -> result Stats.
Variable get_split :
  ASlibScenario -> nat -> result (ASlibScenario * ASlibScenario).
Variable py_int : string -> option Z.
Variable py_float : string -> option Qc.
Variable check_configuration :
  gmap string Hyperparameter -> gmap string value -> option exn.
Variable self_cs : gmap string Hyperparameter.
Variable self_overwrite_args : option (list string).

Abbreviation cv_iteration :=
  (cv_fold clf_fit clf_predict stage_fit_transform stage_transform
     aspeed_fit aspeed_predict Stats_merge validate_runtime
     validate_quality get_split py_int py_float check_configuration
     self_cs self_overwrite_args).

Abbreviation cv_block :=
  (cv_try clf_fit clf_predict stage_fit_transform stage_transform
     aspeed_fit aspeed_predict Stats_new Stats_merge Stats_show
     validate_runtime validate_quality get_split py_int py_float
     check_configuration self_cs self_overwrite_args).

Abbreviation cross_validate :=
  (run_cv clf_fit clf_predict stage_fit_transform stage_transform
     aspeed_fit aspeed_predict Stats_new Stats_merge Stats_show
     validate_runtime validate_quality get_split py_int py_float
     check_configuration self_cs self_overwrite_args).

Abbreviation fit_all :=
  (fit clf_fit stage_fit_transform aspeed_fit py_int py_float
     check_configuration self_cs self_overwrite_args).

(** The [try] block ends at the first iteration that raises. *)
Lemma cv_try_first_error config scenario folds k cv_stat log e :
  1 <= k <= folds ->
  for_each (range 1 k) (cv_iteration config scenario)
           (cv_stat_new Stats_new scenario, []) = ((cv_stat, log), None) ->
  (cv_iteration config scenario k (cv_stat, log)).2 = Some e ->
  cv_block config scenario folds =
  (map InfoCVIteration (range 1 (k + 1)), Raise e).
Proof.
  intros Hk Hbefore Hraise. unfold cv_try.
  rewrite (range_split 1 k (folds + 1)) by lia.
  rewrite for_each_app, Hbefore. cbn [for_each].
  pose proof (cv_fold_log clf_fit clf_predict stage_fit_transform
                stage_transform aspeed_fit aspeed_predict Stats_merge
                validate_runtime validate_quality get_split py_int py_float
                check_configuration self_cs self_overwrite_args
                config scenario k cv_stat log) as Hlog.
  destruct (cv_iteration config scenario k (cv_stat, log)) as [[s1 l1] e'].
  simpl in Hlog, Hraise. subst e' l1.
  apply cv_loop_log in Hbefore. simpl in Hbefore. subst log.
  by rewrite range_snoc, map_app by lia.
Qed.

(** An iteration whose [fit] raises ends with that exception. *)
Lemma cv_fold_fit_raises config scenario i st test training e :
  get_split scenario i = Ok (test, training) ->
  fit_all training config = Raise e ->
  (cv_iteration config scenario i st).2 = Some e.
Proof.
  intros Hsplit Hfit. destruct st as [cv_stat log]. unfold cv_fold.
  rewrite Hsplit. simpl. by rewrite Hfit.
Qed.

(** X13: [run_cv] lets every exception other than [ValueError] pass: when
    an iteration of the loop raises one (the iterations before it having
    passed), [run_cv] raises it, and the iterations after it are not run. *)
Theorem run_cv_other_errors_propagate config scenario folds k cv_stat log e :
  e <> ValueError ->
  1 <= k <= folds ->
  for_each (range 1 k) (cv_iteration config scenario)
           (cv_stat_new Stats_new scenario, []) = ((cv_stat, log), None) ->
  (cv_iteration config scenario k (cv_stat, log)).2 = Some e ->
  cross_validate config scenario folds =
  (map InfoCVIteration (range 1 (k + 1)), Raise e).
Proof.
  intros He Hk Hbefore Hraise. unfold run_cv.
  rewrite (cv_try_first_error _ _ _ _ _ _ _ Hk Hbefore Hraise).
  by destruct e.
Qed.

(** X14: a configuration whose "selector" is not "PairwiseClassifier" makes
    [run_cv] raise [UnboundLocalError] in its first iteration, once the
    split, the preprocessing and the pre-solver have passed: the fallback
    of [run_cv] does not cover it. *)
Theorem run_cv_unknown_selector (config : Configuration) scenario folds
    test training training' pipeline pre_solver :
  config !! "selector" <> Some (VStr "PairwiseClassifier") ->
  self_overwrite_args = None ->
  1 <= folds ->
  get_split scenario 1 = Ok (test, training) ->
  fit_transform_feature_preprocessing stage_fit_transform training config =
    Ok (training', pipeline) ->
  fit_pre_solving aspeed_fit training' config = Ok pre_solver ->
  cross_validate config scenario folds =
  ([InfoCVIteration 1], Raise UnboundLocalError).
Proof.
  intros Hsel Hargs Hfolds Hsplit Hpre Hsolver.
  assert (Hfit : fit_all training config = Raise UnboundLocalError).
  { unfold fit. rewrite Hargs. simpl. rewrite Hpre. simpl.
    rewrite Hsolver. simpl. unfold fit_selector.
    by rewrite bool_decide_eq_false_2. }
  unfold run_cv.
  rewrite (cv_try_first_error config scenario folds 1
             (cv_stat_new Stats_new scenario) [] UnboundLocalError);
    [done|lia|done|].
  by eapply cv_fold_fit_raises.
Qed.

(** X15: an integer hyperparameter overridden on the command line with a
    word [int] cannot read makes [_overwrite_configuration] raise
    [ValueError]; inside [run_cv] this error of [fit] is caught like any
    other [ValueError], and [run_cv] returns ten times the cutoff after its
    first iteration. *)
Theorem run_cv_unreadable_override (config : Configuration) scenario folds
    test training param word rest cutoff :
  self_overwrite_args = Some (param :: word :: rest) ->
  truthy (default VNone (config !! param)) = true ->
  self_cs !! param = Some UniformIntegerHyperparameter ->
  py_int word = None ->
  1 <= folds ->
  get_split scenario 1 = Ok (test, training) ->
  algorithm_cutoff_time scenario = Some cutoff ->
  (_overwrite_configuration py_int py_float check_configuration self_cs
     config (param :: word :: rest)).2 = Raise ValueError /\
  cross_validate config scenario folds =
  ([InfoCVIteration 1], Ok (cutoff * Qc_of_Z 10)%Qc).
Proof.
  intros Hargs Htruthy Hcs Hint Hfolds Hsplit Hcut.
  assert (Hover : (_overwrite_configuration py_int py_float
                     check_configuration self_cs config
                     (param :: word :: rest)).2 = Raise ValueError).
  { unfold _overwrite_configuration, overwrite_loop, pairwise.
    cbn [tail zip zip_with for_each]. unfold overwrite_step at 1.
    by rewrite Htruthy, Hcs, Hint. }
  split; [done|].
  assert (Hfit : fit_all training config = Raise ValueError).
  { unfold fit. rewrite Hargs. cbv beta iota. by rewrite Hover. }
  unfold run_cv.
  rewrite (cv_try_first_error config scenario folds 1
             (cv_stat_new Stats_new scenario) [] ValueError);
    [|lia|done|by eapply cv_fold_fit_raises].
  rewrite Hcut. destruct (maximize scenario); simpl; [|done].
  f_equal. f_equal. apply Qc_fallback_sign.
Qed.


End CrossValidation.

Lemma run_cv_other_errors_propagate_witness :
  (Example.cv_fold ∅ Example.two_algorithms 1
     (AutoFolio.cv_stat_new Example.Stats_new Example.two_algorithms, [])).2 =
    Some UnboundLocalError /\
  Example.run_cv ∅ Example.two_algorithms 3 =
    ([AutoFolio.InfoCVIteration 1], Raise UnboundLocalError).
Proof.
  split; [vm_compute; reflexivity|].
  apply (run_cv_other_errors_propagate Example.memo_fit Example.memo_predict
           Example.stage_fit_transform Example.stage_transform
           Example.aspeed_fit Example.aspeed_predict Example.Stats_new
           Example.Stats_merge Example.Stats_show Example.validate
           Example.validate Example.get_split Example.py_int
           Example.py_float Example.check_configuration Example.space None
           ∅ Example.two_algorithms 3 1
           (AutoFolio.cv_stat_new Example.Stats_new Example.two_algorithms)
           [] UnboundLocalError).
  - intros H. discriminate H.
  - lia.
  - reflexivity.
  - vm_compute. reflexivity.
Defined.

Lemma run_cv_unknown_selector_witness :
  (∅ : Configuration) !! "selector" <> Some (VStr "PairwiseClassifier") /\
  Example.run_cv ∅ Example.two_algorithms 3 =
    ([AutoFolio.InfoCVIteration 1], Raise UnboundLocalError).
Proof.
  assert (H : (∅ : Configuration) !! "selector" <>
              Some (VStr "PairwiseClassifier")).
  { rewrite lookup_empty. intros Heq. discriminate Heq. }
  split; [exact H|].
  apply (run_cv_unknown_selector Example.memo_fit Example.memo_predict
           Example.stage_fit_transform Example.stage_transform
           Example.aspeed_fit Example.aspeed_predict Example.Stats_new
           Example.Stats_merge Example.Stats_show Example.validate
           Example.validate Example.get_split Example.py_int
           Example.py_float Example.check_configuration Example.space None
           ∅ Example.two_algorithms 3
           Example.two_algorithms Example.two_algorithms
           Example.two_algorithms [tt; tt; tt; tt] (Some tt)).
  - exact H.
  - reflexivity.
  - lia.
  - reflexivity.
  - reflexivity.
  - reflexivity.
Defined.

Lemma run_cv_unreadable_override_witness :
  truthy (default VNone (Example.pairwise_config !! "rf:n_estimators")) =
    true /\
  Example.py_int "many" = None /\
  AutoFolio.run_cv Example.memo_fit Example.memo_predict
    Example.stage_fit_transform Example.stage_transform Example.aspeed_fit
    Example.aspeed_predict Example.Stats_new Example.Stats_merge
    Example.Stats_show Example.validate Example.validate Example.get_split
    Example.py_int Example.py_float Example.check_configuration
    Example.space (Some ["rf:n_estimators"; "many"])
    Example.pairwise_config Example.two_algorithms 3 =
  ([AutoFolio.InfoCVIteration 1], Ok (Qc_of_Z 200 * Qc_of_Z 10)%Qc).
Proof.
  split; [reflexivity|]. split; [reflexivity|].
  destruct (run_cv_unreadable_override Example.memo_fit Example.memo_predict
              Example.stage_fit_transform Example.stage_transform
              Example.aspeed_fit Example.aspeed_predict Example.Stats_new
              Example.Stats_merge Example.Stats_show Example.validate
              Example.validate Example.get_split Example.py_int
              Example.py_float Example.check_configuration Example.space
              (Some ["rf:n_estimators"; "many"])
              Example.pairwise_config Example.two_algorithms 3
              Example.two_algorithms Example.two_algorithms
              "rf:n_estimators" "many" [] (Qc_of_Z 200)
              eq_refl eq_refl eq_refl eq_refl ltac:(lia) eq_refl eq_refl)
    as [_ H].
  exact H.
Defined.


Section FitPredictComposition.

Import AutoFolio.

Context {Clf : Type}.
Variable clf_fit :
  list (list Qc) -> list bool -> Configuration -> list Qc -> Clf.
Variable clf_predict : Clf -> list Qc -> bool.
Context {Stage : Type}.
Variable stage_fit_transform :
  StageClass -> ASlibScenario -> Configuration ->
  result (ASlibScenario * Stage).
Variable stage_transform : Stage -> ASlibScenario -> result ASlibScenario.
Context {Aspeed : Type}.
Variable aspeed_fit : ASlibScenario -> Configuration -> result Aspeed.
Variable aspeed_predict :
  Aspeed -> ASlibScenario -> result (gmap string Schedule).
Variable py_int : string -> option Z.
Variable py_float : string -> option Qc.
Variable check_configuration :
  gmap string Hyperparameter -> gmap string value -> option exn.
Variable self_cs : gmap string Hyperparameter.
Variable self_overwrite_args : option (list string).


(** X18: a [fit] that returns has run the four stages in the order
    filter, impute, scale, PCA, each on the scenario the stage before it
    returned and all with the configuration after the overrides; the
    pipeline holds the four fitted stages in that order; the selector is
    the one [fit_selector] returns on the scenario of the last stage; and
    the pre-solver is the [Aspeed] fitted on that scenario when its
    performance type is "runtime", [None] otherwise.  When the stages leave
    the performance type of a scenario as it is, there is a pre-solver
    exactly when the scenario given to [fit] has performance type
    "runtime". *)
Theorem fit_pre_solver_for_runtime scenario config pipeline pre_solver
    selector :
  fit clf_fit stage_fit_transform aspeed_fit py_int py_float
      check_configuration self_cs self_overwrite_args scenario config =
    Ok (pipeline, pre_solver, selector) ->
  exists config' s1 fgf s2 imputer s3 scaler s4 pca,
    match self_overwrite_args with
    | Some ((_ :: _) as args) =>
        (_overwrite_configuration py_int py_float check_configuration
           self_cs config args).2 = Ok config'
    | _ => config' = config
    end /\
    stage_fit_transform FeatureGroupFiltering scenario config' =
      Ok (s1, fgf) /\
    stage_fit_transform ImputerWrapper s1 config' = Ok (s2, imputer) /\
    stage_fit_transform StandardScalerWrapper s2 config' = Ok (s3, scaler) /\
    stage_fit_transform PCAWrapper s3 config' = Ok (s4, pca) /\
    pipeline = [fgf; imputer; scaler; pca] /\
    (if bool_decide (performance_type s4 = "runtime")
     then exists aspeed, aspeed_fit s4 config' = Ok aspeed /\
                         pre_solver = Some aspeed
     else pre_solver = None) /\
    fit_selector clf_fit s4 config' = Ok selector /\
    ((forall c s cfg s' st,
         stage_fit_transform c s cfg = Ok (s', st) ->
         performance_type s' = performance_type s) ->
     (is_Some pre_solver <-> performance_type scenario = "runtime")).
Proof.
  unfold fit.
  assert (Hcfg : exists r,
            r = match self_overwrite_args with
                | Some ((_ :: _) as args) =>
                    (_overwrite_configuration py_int py_float
                       check_configuration self_cs config args).2
                | _ => mret config
                end) by (by eexists).
  destruct Hcfg as [r Hr]. rewrite <-Hr.
  destruct r as [config'|]; simpl; [|done].
  unfold fit_transform_feature_preprocessing.
  destruct (stage_fit_transform FeatureGroupFiltering scenario config')
    as [[s1 f1]|] eqn:H1; simpl; [|done].
  destruct (stage_fit_transform ImputerWrapper s1 config')
    as [[s2 f2]|] eqn:H2; simpl; [|done].
  destruct (stage_fit_transform StandardScalerWrapper s2 config')
    as [[s3 f3]|] eqn:H3; simpl; [|done].
  destruct (stage_fit_transform PCAWrapper s3 config')
    as [[s4 f4]|] eqn:H4; simpl; [|done].
  intros Hrest.
  assert (Hsolver : (if bool_decide (performance_type s4 = "runtime")
                     then exists aspeed, aspeed_fit s4 config' = Ok aspeed /\
                                         pre_solver = Some aspeed
                     else pre_solver = None) /\
                    fit_selector clf_fit s4 config' = Ok selector /\
                    pipeline = [f1; f2; f3; f4]).
  { unfold fit_pre_solving in Hrest.
    destruct (bool_decide (performance_type s4 = "runtime")).
    - destruct (aspeed_fit s4 config') as [aspeed|]; simpl in Hrest; [|done].
      destruct (fit_selector clf_fit s4 config'); simpl in Hrest; [|done].
      injection Hrest as <- <- <-. split_and!; try done. by exists aspeed.
    - simpl in Hrest.
      destruct (fit_selector clf_fit s4 config'); simpl in Hrest; [|done].
      by injection Hrest as <- <- <-. }
  destruct Hsolver as (Hps & Hselector & Hpipe).
  exists config', s1, f1, s2, f2, s3, f3, s4, f4. split_and!; try done.
  - destruct self_overwrite_args as [[|w ws]|]; simpl in Hr;
      by first [injection Hr as <- | symmetry].
  - intros Hstage.
    assert (Htype : performance_type s4 = performance_type scenario).
    { rewrite (Hstage _ _ _ _ _ H4), (Hstage _ _ _ _ _ H3),
        (Hstage _ _ _ _ _ H2). by apply (Hstage _ _ _ _ _ H1). }
    rewrite <-Htype.
    destruct (bool_decide (performance_type s4 = "runtime")) eqn:Hrt.
    + apply bool_decide_eq_true in Hrt.
      destruct Hps as (aspeed & _ & ->). split; [done|by eexists].
    + apply bool_decide_eq_false in Hrt. subst pre_solver.
      split; [by intros [? ?]|done].
Qed.

(** X19: [predict] returns, for an instance of the transformed scenario,
    the pre-solving entries of that instance (none when there is no
    pre-solver or it has none for the instance) followed by one entry: the
    algorithm with the most votes, lowest index first, with the budget
    cutoff plus one. *)
Theorem predict_schedule_shape scenario config pipeline pre_solver
    (selector : PairwiseClassifier.t Clf) scenario' pre inst x :
  let n_algos := length (algorithms scenario') in
  let cps := zip (PairwiseClassifier.self_classifiers selector)
                 (canonical_pairs n_algos) in
  transform_all stage_transform pipeline scenario = Ok scenario' ->
  match pre_solver with
  | Some aspeed => aspeed_predict aspeed scenario' = Ok pre
  | None => pre = ∅
  end ->
  1 <= n_algos ->
  n_algos * (n_algos - 1) / 2 <=
    length (PairwiseClassifier.self_classifiers selector) ->
  NoDup (feature_index scenario') ->
  (inst, x) ∈ feature_data scenario' ->
  exists schedules a name,
    predict clf_predict stage_transform aspeed_predict scenario config
            pipeline pre_solver selector = Ok schedules /\
    schedules !! inst =
      Some (default [] (pre !! inst) ++
            [(name, (PairwiseClassifier.predict_cutoff scenario' + 1)%Qc)]) /\
    algorithms scenario' !! a = Some name /\
    first_maximum (map (votes clf_predict cps x) (seq 0 n_algos)) a.
Proof.
  intros n_algos cps Htrans Hpre Hn Hlen Hnd Hin.
  rewrite <-canonical_pairs_length in Hlen.
  destruct (predict_lookup clf_predict selector scenario' Hn Hlen Hnd)
    as (sel & Hsel & Hlk).
  destruct (Hlk inst x Hin) as (a & name & Hs & Ha & Hmax).
  exists (combine_schedules pre sel), a, name. split_and!; [|  |done..].
  - unfold predict. rewrite Htrans. simpl.
    destruct pre_solver as [aspeed|]; [rewrite Hpre|subst pre]; simpl;
      by rewrite Hsel.
  - destruct (decide (pre = ∅)) as [->|Hne].
    + unfold combine_schedules. rewrite bool_decide_eq_true_2 by done.
      by rewrite Hs, lookup_empty.
    + by rewrite combine_lookup, Hs by done.
Qed.

End FitPredictComposition.

Lemma example_stage_keeps_type :
  forall c s cfg s' (st : unit),
    Example.stage_fit_transform c s cfg = Ok (s', st) ->
    performance_type s' = performance_type s.
Proof. intros c s cfg s' st H. injection H as <- _. reflexivity. Defined.

Lemma fit_pre_solver_for_runtime_witness :
  exists pipeline pre_solver selector,
    AutoFolio.fit Example.memo_fit Example.stage_fit_transform
      Example.aspeed_fit Example.py_int Example.py_float
      Example.check_configuration Example.space None
      Example.two_algorithms Example.pairwise_config =
      Ok (pipeline, pre_solver, selector) /\
    pipeline = [tt; tt; tt; tt] /\
    (is_Some pre_solver <->
     performance_type Example.two_algorithms = "runtime").
Proof.
  destruct (AutoFolio.fit Example.memo_fit Example.stage_fit_transform
              Example.aspeed_fit Example.py_int Example.py_float
              Example.check_configuration Example.space None
              Example.two_algorithms Example.pairwise_config)
    as [[[pipeline pre_solver] selector]|e] eqn:Hfit.
  - exists pipeline, pre_solver, selector. split; [reflexivity|].
    destruct (fit_pre_solver_for_runtime Example.memo_fit
                Example.stage_fit_transform Example.aspeed_fit
                Example.py_int Example.py_float Example.check_configuration
                Example.space None Example.two_algorithms
                Example.pairwise_config pipeline pre_solver selector Hfit)
      as (config' & s1 & [] & s2 & [] & s3 & [] & s4 & [] &
          _ & _ & _ & _ & _ & Hpipe & _ & _ & Hiff).
    split; [exact Hpipe|]. apply Hiff. exact example_stage_keeps_type.
  - vm_compute in Hfit. discriminate Hfit.
Defined.

Lemma predict_schedule_shape_witness :
  let pre : gmap string Schedule :=
    dict (map (fun inst => (inst, []))
              (feature_index Example.two_algorithms)) in
  Example.aspeed_predict tt Example.two_algorithms = Ok pre /\
  exists schedules name,
    AutoFolio.predict Example.memo_predict Example.stage_transform
      Example.aspeed_predict Example.two_algorithms Example.pairwise_config
      [tt; tt; tt; tt] (Some tt) Example.fitted = Ok schedules /\
    schedules !! "inst1" =
      Some (default [] (pre !! "inst1") ++
            [(name,
              (PairwiseClassifier.predict_cutoff Example.two_algorithms
               + 1)%Qc)]).
Proof.
  intros pre. split; [reflexivity|].
  destruct (predict_schedule_shape Example.memo_predict
              Example.stage_transform Example.aspeed_predict
              Example.two_algorithms Example.pairwise_config
              [tt; tt; tt; tt] (Some tt) Example.fitted
              Example.two_algorithms pre "inst1" [Qc_of_Z 1]
              eq_refl eq_refl ltac:(simpl; lia) ltac:(vm_compute; lia)
              example_instances_distinct example_inst1)
    as (schedules & a & name & Hp & Hs & _).
  exists schedules, name. split; [exact Hp | exact Hs].
Defined.

(** ** [PairwiseClassifier.add_params] *)

(** X20: [add_params] makes "PairwiseClassifier" a choice of the "selector"
    hyperparameter.  On a space without "selector" it adds the
    hyperparameter with that single choice as its default; on a space that
    has a categorical "selector" it appends the choice and keeps the choices
    and the default there were; every other hyperparameter is left as it
    is.  It checks for no duplicate: each further call appends the choice
    once more. *)
Theorem add_params_registers_selector
    (cs cs' : gmap string PairwiseClassifier.SpaceParameter) :
  PairwiseClassifier.add_params cs = PairwiseClassifier.Added cs' ->
  (exists choices default,
      cs' !! "selector" =
        Some (PairwiseClassifier.Categorical
                (choices ++ [VStr "PairwiseClassifier"]) default) /\
      (cs !! "selector" = None ->
       choices = [] /\ default = VStr "PairwiseClassifier") /\
      (forall old_choices old_default,
          cs !! "selector" =
            Some (PairwiseClassifier.Categorical old_choices old_default) ->
          choices = old_choices /\ default = old_default) /\
      PairwiseClassifier.add_params cs' =
        PairwiseClassifier.Added
          (<["selector" :=
               PairwiseClassifier.Categorical
                 ((choices ++ [VStr "PairwiseClassifier"]) ++
                  [VStr "PairwiseClassifier"]) default]> cs')) /\
  (forall name, name <> "selector" -> cs' !! name = cs !! name).
Proof.
  unfold PairwiseClassifier.add_params at 1.
  destruct (cs !! "selector") as [[choices default|]|] eqn:Hsel;
    [|done|]; intros [= <-].
  - split.
    + exists choices, default. split_and!.
      * by rewrite lookup_insert_eq.
      * done.
      * by intros ?? [= -> ->].
      * unfold PairwiseClassifier.add_params. by rewrite lookup_insert_eq.
    + intros name Hne. by rewrite lookup_insert_ne.
  - split.
    + exists [], (VStr "PairwiseClassifier"). split_and!.
      * by rewrite lookup_insert_eq.
      * done.
      * done.
      * unfold PairwiseClassifier.add_params. by rewrite lookup_insert_eq.
    + intros name Hne. by rewrite lookup_insert_ne.
Qed.

Lemma add_params_registers_selector_witness :
  let cs : gmap string PairwiseClassifier.SpaceParameter :=
    {["pca" := PairwiseClassifier.Categorical [VBool true; VBool false]
                 (VBool false)]} in
  exists cs',
    PairwiseClassifier.add_params cs = PairwiseClassifier.Added cs' /\
    cs' !! "pca" = cs !! "pca".
Proof.
  intros cs.
  destruct (PairwiseClassifier.add_params cs) as [cs'|] eqn:Hadd.
  - exists cs'. split; [reflexivity|].
    destruct (add_params_registers_selector cs cs' Hadd) as [_ H].
    apply H. intros Heq. discriminate Heq.
  - vm_compute in Hadd. discriminate Hadd.
Defined.

(** ** [AutoFolio.read_model_and_predict] *)

Section ReadModel.

Import AutoFolio.

Context {Clf : Type}.
Variable clf_predict : Clf -> list Qc -> bool.
Context {Stage : Type}.
Variable stage_transform : Stage -> ASlibScenario -> result ASlibScenario.
Context {Aspeed : Type}.
Variable aspeed_predict :
  Aspeed -> ASlibScenario -> result (gmap string Schedule).

(** The scenario [read_model_and_predict] hands to [predict]. *)
Lemma read_model_unfold scenario feature_names pipeline pre_solver
    (selector : PairwiseClassifier.t Clf) config feature_vec :
  length feature_vec = length feature_names ->
  read_model_and_predict clf_predict stage_transform aspeed_predict
    scenario feature_names pipeline pre_solver selector config feature_vec =
  pred ← predict clf_predict stage_transform aspeed_predict
         {| algorithms := algorithms scenario;
            feature_data := [("pseudo_instance", feature_vec)];
            performance_data := performance_data scenario;
            performance_type := performance_type scenario;
            algorithm_cutoff_time := algorithm_cutoff_time scenario;
            maximize := maximize scenario |}
         config pipeline pre_solver selector;
  match pred !! "pseudo_instance" with
  | Some schedule => Ok schedule
  | None => Raise KeyError
  end.
Proof.
  intros Hlen. unfold read_model_and_predict.
  by rewrite bool_decide_eq_true_2.
Qed.

(** X21: [read_model_and_predict] on a feature vector without one value for
    each feature name is a [ValueError].  Otherwise, when the stages of the
    saved pipeline turn the scenario of the one pseudo instance into a
    scenario that still has that one instance, with at least one algorithm
    and no more pairs than the selector has classifiers, it prints the
    pre-solving entries of the pseudo instance (none without a pre-solver)
    followed by the algorithm with the most votes on the transformed
    feature vector (lowest index first), with the budget cutoff plus
    one. *)
Theorem read_model_and_predict_schedule scenario feature_names pipeline
    pre_solver (selector : PairwiseClassifier.t Clf) config feature_vec :
  (length feature_vec <> length feature_names ->
   read_model_and_predict clf_predict stage_transform aspeed_predict
     scenario feature_names pipeline pre_solver selector config feature_vec =
     Raise ValueError) /\
  (length feature_vec = length feature_names ->
   forall scenario' x' pre,
     let n_algos := length (algorithms scenario') in
     let cps := zip (PairwiseClassifier.self_classifiers selector)
                    (canonical_pairs n_algos) in
     transform_all stage_transform pipeline
       {| algorithms := algorithms scenario;
          feature_data := [("pseudo_instance", feature_vec)];
          performance_data := performance_data scenario;
          performance_type := performance_type scenario;
          algorithm_cutoff_time := algorithm_cutoff_time scenario;
          maximize := maximize scenario |} = Ok scenario' ->
     feature_data scenario' = [("pseudo_instance", x')] ->
     match pre_solver with
     | Some aspeed => aspeed_predict aspeed scenario' = Ok pre
     | None => pre = ∅
     end ->
     1 <= n_algos ->
     n_algos * (n_algos - 1) / 2 <=
       length (PairwiseClassifier.self_classifiers selector) ->
     exists a name,
       read_model_and_predict clf_predict stage_transform aspeed_predict
         scenario feature_names pipeline pre_solver selector config
         feature_vec =
         Ok (default [] (pre !! "pseudo_instance") ++
             [(name,
               (PairwiseClassifier.predict_cutoff scenario' + 1)%Qc)]) /\
       algorithms scenario' !! a = Some name /\
       first_maximum (map (votes clf_predict cps x') (seq 0 n_algos)) a).
Proof.
  split.
  - intros Hvec. unfold read_model_and_predict.
    by rewrite bool_decide_eq_false_2.
  - intros Hvec scenario' x' pre n_algos cps Htrans Hdata Hpre Hn Hlen.
    rewrite read_model_unfold by done.
    rewrite <-canonical_pairs_length in Hlen.
    destruct (predict_lookup clf_predict selector scenario' Hn Hlen)
      as (sel & Hsel & Hlk).
    { unfold feature_index. rewrite Hdata. simpl. apply NoDup_singleton. }
    destruct (Hlk "pseudo_instance" x') as (a & name & Hs & Ha & Hmax).
    { rewrite Hdata. by left. }
    exists a, name. split_and!; [|done..].
    unfold predict. rewrite Htrans. simpl.
    assert (Hcombined : combine_schedules pre sel !! "pseudo_instance" =
              Some (default [] (pre !! "pseudo_instance") ++
                    [(name,
                      (PairwiseClassifier.predict_cutoff scenario' + 1)%Qc)])).
    { destruct (decide (pre = ∅)) as [->|Hne].
      - unfold combine_schedules. rewrite bool_decide_eq_true_2 by done.
        by rewrite Hs, lookup_empty.
      - by rewrite combine_lookup, Hs by done. }
    destruct pre_solver as [aspeed|]; [rewrite Hpre|subst pre]; simpl;
      rewrite Hsel; simpl; unfold mret, result_ret; by rewrite Hcombined.
Qed.

End ReadModel.

Lemma read_model_and_predict_schedule_witness :
  exists name,
    AutoFolio.read_model_and_predict Example.memo_predict
      Example.stage_transform Example.aspeed_predict
      Example.two_algorithms ["f1"] [tt; tt; tt; tt] None Example.fitted
      Example.pairwise_config [Qc_of_Z 2] =
    Ok ([] ++
        [(name,
          (PairwiseClassifier.predict_cutoff Example.two_algorithms
           + 1)%Qc)]).
Proof.
  destruct (read_model_and_predict_schedule Example.memo_predict
              Example.stage_transform Example.aspeed_predict
              Example.two_algorithms ["f1"] [tt; tt; tt; tt] None
              Example.fitted Example.pairwise_config [Qc_of_Z 2])
    as [_ H].
  destruct (H eq_refl
              {| algorithms := algorithms Example.two_algorithms;
                 feature_data := [("pseudo_instance", [Qc_of_Z 2])];
                 performance_data := performance_data Example.two_algorithms;
                 performance_type := performance_type Example.two_algorithms;
                 algorithm_cutoff_time :=
                   algorithm_cutoff_time Example.two_algorithms;
                 maximize := maximize Example.two_algorithms |}
              [Qc_of_Z 2] ∅ eq_refl eq_refl eq_refl
              ltac:(simpl; lia) ltac:(vm_compute; lia))
    as (a & name & Hr & _).
  exists name. exact Hr.
Defined.
